(** * The DSP engine of the scripture-soaking factory

    A shallow embedding of [src/modules/dsp_engine.py] (class [DSPEngine]) and of
    the DSP stage of [src/main.py] ([run_pipeline], lines 47-52 and its
    [except] handler), with the parts of pydub, numpy and scipy the engine
    calls.

    Layout of the development:
    - [Py]       Python scalars: binary64 floats, [int()], [round()], slices;
    - [Bytes]    little-endian PCM bytes ([ndarray.tobytes], [array.array]);
    - [Pydub]    [AudioSegment] and the pydub operations the engine uses;
    - [External] (a class) the numeric kernels of numpy, scipy and audioop;
    - [Engine]   the methods of [DSPEngine] and the DSP stage of [run_pipeline];
    - [PyStr], [Vocal], [Parser], [Seo] the text helpers of
      [src/modules/vocal_synthesizer.py], the instructions of
      [src/modules/synapse_parser.py] and the chapter list and theme of
      [src/modules/seo_metadata_injector.py];
    - [Placeholder] an instance of the interface, to run examples;
    - auxiliary results, then one section per claim, then further
      properties of the engine and of the text helpers.

    Conventions.  Python [int]s are [Z]; every integer converted to a float
    here is a sample count, a rate or a duration and is taken below [2^63].
    Python [float]s are Rocq's primitive binary64 floats, so [int(...)] and
    [round(...)] of a float expression evaluate as in CPython.  The host is
    little-endian (numpy's and [array]'s native byte order). *)

From Stdlib Require Import ZArith QArith Qabs Lia List String Strings.Byte.
From Stdlib Require Import Strings.Ascii.
From Stdlib Require Import Floats.PrimFloat Floats.FloatOps Floats.SpecFloat.
From Stdlib Require Import Floats.FloatAxioms.
From Stdlib Require Import Numbers.Cyclic.Int63.Uint63.
From stdpp Require Import base list strings pretty gmap.

Set Warnings "-inexact-float".
Open Scope string_scope.
Open Scope Z_scope.

(** ** Python scalars *)
Module Py.

(** Python's [len]. *)
Definition len {A} (l : list A) : Z := Z.of_nat (length l).

(** [float(n)] for an integer below [2^63] in magnitude. *)
Definition float_of_Z (z : Z) : float :=
  if z <? 0 then PrimFloat.opp (of_uint63 (Uint63.of_Z (- z)))
  else of_uint63 (Uint63.of_Z z).

(** Magnitude of a finite float as [m * 2^e]. *)
Definition floor_mag (m : positive) (e : Z) : Z :=
  match e with
  | Z0 => Zpos m
  | Zpos p => Zpos m * 2 ^ Zpos p
  | Zneg p => Zpos m / 2 ^ Zpos p
  end.

(** [int(x)]: truncation toward zero.  (On an infinity or a NaN Python
    raises; none arises from the 63-bit integers fed to it here.) *)
Definition py_int (x : float) : Z :=
  match Prim2SF x with
  | S754_finite s m e => if s then - floor_mag m e else floor_mag m e
  | _ => 0
  end.

(** [round(x)] with no digits: nearest integer, ties to even. *)
Definition round_mag (m : positive) (e : Z) : Z :=
  match e with
  | Zneg p =>
      let d := 2 ^ Zpos p in
      let q := Zpos m / d in
      let r := Zpos m mod d in
      if 2 * r <? d then q
      else if d <? 2 * r then q + 1
      else if Z.even q then q else q + 1
  | _ => floor_mag m e
  end.

Definition py_round (x : float) : Z :=
  match Prim2SF x with
  | S754_finite s m e => if s then - round_mag m e else round_mag m e
  | _ => 0
  end.

(** Python's [seq[start:stop]] for any integers: negative indices count
    from the end, everything is clamped to the sequence. *)
Definition clamp_index (n i : Z) : Z :=
  if i <? 0 then Z.max (i + n) 0 else Z.min i n.

Definition slice {A} (l : list A) (start stop : Z) : list A :=
  let n := len l in
  let a := clamp_index n start in
  let b := clamp_index n stop in
  take (Z.to_nat (b - a)) (drop (Z.to_nat a) l).

(** [seq * k]: repetition, empty for [k <= 0]. *)
Definition repeat_seq {A} (l : list A) (k : Z) : list A :=
  concat (replicate (Z.to_nat k) l).

End Py.

(** ** Exceptions and results *)

(** A raised Python exception: its class name and its message. *)
Record exn := Exn { exn_class : string; exn_msg : string }.

Definition result (A : Type) : Type := exn + A.

Abbreviation ok := (@inr exn _).
Abbreviation raise := (@inl exn _).

Definition rbind {A B} (c : result A) (k : A -> result B) : result B :=
  match c with
  | inl e => inl e
  | inr a => k a
  end.

Notation "'let*' x ':=' c 'in' k" := (rbind c (fun x => k))
  (at level 10, x name, c at level 100, k at level 200).

Definition ValueError (msg : string) : exn := Exn "ValueError" msg.
Definition ZeroDivisionError : exn := Exn "ZeroDivisionError" "division by zero".

(** ** PCM bytes *)
Module Bytes.

Definition byte_of_Z (z : Z) : byte :=
  match Byte.of_N (Z.to_N (z mod 256)) with
  | Some b => b
  | None => "000"%byte
  end.

(** The [n] little-endian bytes of [z] in two's complement. *)
Fixpoint le_bytes (n : nat) (z : Z) : list byte :=
  match n with
  | O => []
  | S n' => byte_of_Z z :: le_bytes n' (z / 256)
  end.

Fixpoint le_unsigned (bs : list byte) : Z :=
  match bs with
  | [] => 0
  | b :: r => Z.of_N (Byte.to_N b) + 256 * le_unsigned r
  end.

Definition le_signed (bs : list byte) : Z :=
  let u := le_unsigned bs in
  let m := 256 ^ Z.of_nat (length bs) in
  if 2 * u <? m then u else u - m.

Fixpoint chunks_aux (k w : nat) (bs : list byte) : list (list byte) :=
  match k with
  | O => []
  | S k' => take w bs :: chunks_aux k' w (drop w bs)
  end.

(** Consecutive [w]-byte items of a byte string. *)
Definition chunks (w : nat) (bs : list byte) : list (list byte) :=
  chunks_aux (length bs / w)%nat w bs.

(** [ndarray.tobytes()] of an integer array whose items are [w] bytes wide. *)
Definition tobytes (w : nat) (xs : list Z) : list byte :=
  concat (map (le_bytes w) xs).

(** [array.array(typecode, data)] read back as signed [w]-byte items. *)
Definition frombytes (w : nat) (bs : list byte) : list Z :=
  map le_signed (chunks w bs).

End Bytes.

(** ** Audio segments *)

(** Bytes per sample.  pydub reads 8-, 16- and 32-bit PCM (24-bit data is
    widened to 32 bits when a segment is built). *)
Inductive width := W1 | W2 | W4.

Definition width_bytes (w : width) : Z :=
  match w with W1 => 1 | W2 => 2 | W4 => 4 end.

Definition width_nat (w : width) : nat := Z.to_nat (width_bytes w).

Definition width_max (a b : width) : width :=
  if width_bytes a <? width_bytes b then b else a.

(** Channel layout; the engine is specified for mono and stereo sources. *)
Inductive layout := Mono | Stereo.

Definition nchannels (c : layout) : Z :=
  match c with Mono => 1 | Stereo => 2 end.

Definition layout_max (a b : layout) : layout :=
  match a with Stereo => Stereo | Mono => b end.

(** pydub's [AudioSegment].  [samples] is the raw data read as signed
    little-endian items of [sample_width] bytes, interleaved by channel
    (what [get_array_of_samples] returns). *)
Record AudioSegment := Segment {
  samples : list Z;
  sample_width : width;
  frame_rate : Z;
  channels : layout
}.

Definition with_samples (a : AudioSegment) (d : list Z) : AudioSegment :=
  Segment d (sample_width a) (frame_rate a) (channels a).

(** ** The numeric kernels the engine calls

    The values computed by numpy's float arrays, by scipy.signal, by the
    [math] module and by [audioop.ratecv] are not re-implemented: they are the
    fields of an interface.  What the engine relies on besides the values,
    the shapes of the arrays returned and the argument checks that raise, is
    stated as laws or written out in the wrappers below. *)
Class External := {
  (** Element of a numpy float array. *)
  F : Type;
  (** [np.array(ints, dtype=np.float32)] on one item. *)
  of_int : Z -> F;
  (** Array item divided / multiplied by a Python int. *)
  fdiv_int : F -> Z -> F;
  fmul_int : F -> Z -> F;
  (** Python float times array item. *)
  fscale : float -> F -> F;
  fadd : F -> F -> F;
  fsub : F -> F -> F;
  fmul : F -> F -> F;
  fabs : F -> F;
  fexp : F -> F;
  (** Array item [>] Python float. *)
  fgt : F -> float -> bool;
  (** [.astype(np.int32)] on one item. *)
  astype_int32 : F -> Z;
  astype_int32_range : forall x, - 2 ^ 31 <= astype_int32 x < 2 ^ 31;
  (** [np.linspace(start, stop, num)] for [num >= 0]. *)
  linspace : Z -> Z -> nat -> list F;
  linspace_length : forall a b n, length (linspace a b n) = n;
  (** [np.random.normal(loc, scale, size)]: the draw and the next state of
      numpy's global generator. *)
  random_normal : Z -> float -> float -> nat -> list F * Z;
  random_normal_length :
    forall g loc sc n, length (fst (random_normal g loc sc n)) = n;
  (** [scipy.signal.resample(x, num)] for a non-empty [x] and [num > 0];
      what scipy does outside that range is left to the instance. *)
  resample : list F -> Z -> result (list F);
  resample_spec :
    forall x num, x <> [] -> 0 < num ->
      exists y, resample x num = ok y /\ Py.len y = num;
  (** Coefficients [(b, a)] of [scipy.signal.butter(N, [low, high],
      btype='band')] for valid critical frequencies: [2 * N + 1] each. *)
  butter_ba : Z -> float -> float -> list float * list float;
  butter_ba_length :
    forall N lo hi, 0 <= N ->
      Py.len (fst (butter_ba N lo hi)) = 2 * N + 1 /\
      Py.len (snd (butter_ba N lo hi)) = 2 * N + 1;
  (** Values of [scipy.signal.filtfilt(b, a, x)]. *)
  filtfilt_values : list float -> list float -> list F -> list F;
  filtfilt_length :
    forall b a x, length (filtfilt_values b a x) = length x;
  (** Values of [scipy.signal.fftconvolve(x, y, mode='full')] for non-empty
      [x] and [y]. *)
  fftconvolve_values : list F -> list F -> list F;
  fftconvolve_length :
    forall x y, x <> [] -> y <> [] ->
      Py.len (fftconvolve_values x y) = Py.len x + Py.len y - 1;
  (** [10 ** x] and [math.log(x, 10)]. *)
  pow10 : float -> float;
  log10 : float -> float;
  (** Samples written by [audioop.ratecv(data, width, nchannels, inrate,
      outrate, None)] for positive rates. *)
  ratecv : list Z -> width -> layout -> Z -> Z -> list Z;
  (** Samples written by [audioop.mul(data, width, factor)]. *)
  audioop_mul : list Z -> width -> float -> list Z;
  audioop_mul_length :
    forall d w k, length (audioop_mul d w k) = length d
}.

(** ** pydub *)
Module Pydub.
Section WithExternal.
Context `{External}.
Import Py.

(** [AudioSegment(data, sample_width=..., frame_rate=..., channels=...)]. *)
Definition AudioSegment_init (data : list byte) (sw : width) (fr : Z)
    (ch : layout) : result AudioSegment :=
  if len data mod (width_bytes sw * nchannels ch) =? 0
  then ok (Segment (Bytes.frombytes (width_nat sw) data) sw fr ch)
  else raise (ValueError
                "data length must be a multiple of '(sample_width * channels)'").

(** [AudioSegment.empty()]. *)
Definition empty : AudioSegment := Segment [] W1 1 Mono.

(** [seg.frame_count()]: [len(self._data) // self.frame_width]. *)
Definition frame_count (a : AudioSegment) : Z :=
  len (samples a) / nchannels (channels a).

(** [seg.frame_count(ms=ms)]: [ms * (self.frame_rate / 1000.0)]. *)
Definition frames_of_ms (rate ms : Z) : float :=
  (float_of_Z ms * (float_of_Z rate / 1000))%float.

Definition frame_count_ms (a : AudioSegment) (ms : Z) : float :=
  frames_of_ms (frame_rate a) ms.

(** [len(seg)], in milliseconds:
    [round(1000 * (self.frame_count() / self.frame_rate))]. *)
Definition ms_of_frames (frames rate : Z) : result Z :=
  if rate =? 0
  then raise (Exn "ZeroDivisionError" "float division by zero")
  else ok (py_round (1000 * (float_of_Z frames / float_of_Z rate))%float).

Definition seg_len (a : AudioSegment) : result Z :=
  ms_of_frames (frame_count a) (frame_rate a).

(** [AudioSegment.silent(duration=..., frame_rate=...)]: 16-bit mono zeros,
    [int(frame_rate * (duration / 1000.0))] frames. *)
Definition silent_frames (duration frame_rate : Z) : Z :=
  py_int (float_of_Z frame_rate * (float_of_Z duration / 1000))%float.

Definition silent (duration frame_rate : Z) : AudioSegment :=
  Segment (repeat_seq [0] (silent_frames duration frame_rate))
          W2 frame_rate Mono.

(** [seg.set_channels(n)]: [audioop.tostereo] duplicates every sample,
    [audioop.tomono] halves the sum of each pair. *)
Fixpoint tomono (d : list Z) : list Z :=
  match d with
  | l :: r :: d' => (l + r) / 2 :: tomono d'
  | _ => []
  end.

Definition set_channels (c : layout) (a : AudioSegment) : AudioSegment :=
  match channels a, c with
  | Mono, Stereo =>
      Segment (concat (map (fun s => [s; s]) (samples a)))
              (sample_width a) (frame_rate a) Stereo
  | Stereo, Mono =>
      Segment (tomono (samples a)) (sample_width a) (frame_rate a) Mono
  | _, _ => a
  end.

(** [seg.set_frame_rate(r)]. *)
Definition set_frame_rate (r : Z) (a : AudioSegment) : result AudioSegment :=
  if r =? frame_rate a then ok a
  else match samples a with
       | [] => ok (Segment [] (sample_width a) r (channels a))
       | _ =>
           if (frame_rate a <=? 0) || (r <=? 0)
           then raise (Exn "error" "sampling rate not > 0")
           else ok (Segment (ratecv (samples a) (sample_width a) (channels a)
                                    (frame_rate a) r)
                            (sample_width a) r (channels a))
       end.

(** [seg.set_sample_width(w)]: [audioop.lin2lin] shifts the samples. *)
Definition lin2lin (from to : width) (s : Z) : Z :=
  if width_bytes from <=? width_bytes to
  then s * 2 ^ (8 * (width_bytes to - width_bytes from))
  else s / 2 ^ (8 * (width_bytes from - width_bytes to)).

Definition set_sample_width (w : width) (a : AudioSegment) : AudioSegment :=
  Segment (map (lin2lin (sample_width a) w) (samples a))
          w (frame_rate a) (channels a).

(** [AudioSegment._sync(a, b)]: both segments brought to the larger channel
    count, frame rate and sample width. *)
Definition conform (c : layout) (r : Z) (w : width) (a : AudioSegment)
    : result AudioSegment :=
  let* a1 := set_frame_rate r (set_channels c a) in
  ok (set_sample_width w a1).

Definition sync (a b : AudioSegment) : result (AudioSegment * AudioSegment) :=
  let c := layout_max (channels a) (channels b) in
  let r := Z.max (frame_rate a) (frame_rate b) in
  let w := width_max (sample_width a) (sample_width b) in
  let* a' := conform c r w a in
  let* b' := conform c r w b in
  ok (a', b').

(** [a + b] ([append] with [crossfade=0]). *)
Definition append (a b : AudioSegment) : result AudioSegment :=
  let* p := sync a b in
  ok (with_samples (fst p) (samples (fst p) ++ samples (snd p))).

(** [seg._parse_position(val)]. *)
Definition parse_position (a : AudioSegment) (val : Z) : result Z :=
  let* v := (if val <? 0
             then let* n := seg_len a in ok (n - Z.abs val)
             else ok val) in
  ok (py_int (frame_count_ms a v)).

(** [seg[start:stop]], in milliseconds ([seg[:stop]] is [start = 0]). *)
Definition getitem_slice (a : AudioSegment) (start stop : Z)
    : result AudioSegment :=
  let* n := seg_len a in
  let start := Z.min start n in
  let stop := Z.min stop n in
  let* fs := parse_position a start in
  let* fe := parse_position a stop in
  let ch := nchannels (channels a) in
  let data := slice (samples a) (fs * ch) (fe * ch) in
  let missing_frames := (fe * ch - fs * ch - len data) / ch in
  if missing_frames =? 0 then ok (with_samples a data)
  else if (frame_count_ms a 2 <? float_of_Z missing_frames)%float
  then raise (Exn "TooManyMissingFrames"
                ("You should never be filling in    more than 2 ms with silence here, missing frames: "
                 +:+ pretty missing_frames))
  else
    let silence := map (fun _ => 0) (slice data 0 ch) in
    ok (with_samples a (data ++ repeat_seq silence missing_frames)).

(** [seg.get_array_of_samples()]. *)
Definition get_array_of_samples (a : AudioSegment) : list Z := samples a.

(** [seg.max]: [audioop.max], the largest absolute sample (0 when empty). *)
Definition seg_max (a : AudioSegment) : Z :=
  foldr (fun s m => Z.max (Z.abs s) m) 0 (samples a).

(** [seg.max_possible_amplitude]: [2 ** (8 * sample_width) / 2]. *)
Definition max_possible_amplitude (a : AudioSegment) : float :=
  (float_of_Z (2 ^ (8 * width_bytes (sample_width a))) / 2)%float.

(** [pydub.utils.db_to_float] and [ratio_to_db] (amplitude ratios). *)
Definition db_to_float (db : float) : float := pow10 (db / 20)%float.

Definition ratio_to_db (ratio : float) : float :=
  if (ratio =? 0)%float then neg_infinity else (20 * log10 ratio)%float.

(** [seg.apply_gain(db)]. *)
Definition apply_gain (a : AudioSegment) (volume_change : float)
    : AudioSegment :=
  with_samples a
    (audioop_mul (samples a) (sample_width a) (db_to_float volume_change)).

(** [pydub.effects.normalize(seg, headroom)], reached as
    [seg.normalize(headroom=...)]. *)
Definition normalize (seg : AudioSegment) (headroom : float) : AudioSegment :=
  let peak_sample_val := seg_max seg in
  if peak_sample_val =? 0 then seg
  else
    let target_peak :=
      (max_possible_amplitude seg * db_to_float (- headroom))%float in
    let needed_boost :=
      ratio_to_db (target_peak / float_of_Z peak_sample_val)%float in
    apply_gain seg needed_boost.

End WithExternal.
End Pydub.

(** ** The world the engine runs in *)

(** One formatted log message: literal text, floats and exception texts
    interpolated by an f-string. *)
Inductive piece :=
| Txt (s : string)
| Num (x : float).

Inductive LogRecord :=
| Info (msg : list piece)
| Error (msg : list piece).

(** A file on disk: a WAV file, held decoded, or anything else. *)
Inductive File :=
| WavFile (a : AudioSegment)
| NotAudio.

Record World := mkWorld {
  log : list LogRecord;          (* what the loggers have emitted, oldest first *)
  files : gmap string File;      (* the file system *)
  rng : Z                        (* numpy's global random state *)
}.

(** Computations that log, read and write files, draw random numbers and
    may raise. *)
Definition M (A : Type) : Type := World -> result A * World.

Definition ret {A} (a : A) : M A := fun w => (ok a, w).

Definition throw {A} (e : exn) : M A := fun w => (raise e, w).

Definition bind {A B} (c : M A) (k : A -> M B) : M B :=
  fun w => match c w with
           | (inl e, w') => (inl e, w')
           | (inr a, w') => k a w'
           end.

Notation "'let!' x ':=' c 'in' k" := (bind c (fun x => k))
  (at level 10, x name, c at level 100, k at level 200).

Definition lift {A} (r : result A) : M A := fun w => (r, w).

(** [try: c  except Exception as e: h e]. *)
Definition try_except {A} (c : M A) (h : exn -> M A) : M A :=
  fun w => match c w with
           | (inl e, w') => h e w'
           | (inr a, w') => (inr a, w')
           end.

Definition logger_info (msg : list piece) : M unit :=
  fun w => (ok tt, mkWorld (log w ++ [Info msg]) (files w) (rng w)).

Definition logger_error (msg : list piece) : M unit :=
  fun w => (ok tt, mkWorld (log w ++ [Error msg]) (files w) (rng w)).

(** [AudioSegment.from_wav(path)]. *)
Definition from_wav (path : string) : M AudioSegment :=
  fun w => match files w !! path with
           | Some (WavFile a) => (ok a, w)
           | Some NotAudio =>
               (raise (Exn "CouldntDecodeError"
                           "Decoding failed. ffmpeg returned error code: 1"), w)
           | None =>
               (raise (Exn "FileNotFoundError"
                           ("[Errno 2] No such file or directory: '" +:+ path +:+ "'")), w)
           end.

(** [seg.export(path, format="wav")]. *)
Definition export (a : AudioSegment) (path : string) : M unit :=
  fun w => (ok tt, mkWorld (log w) (<[path := WavFile a]> (files w)) (rng w)).

(** ** The engine *)
Module Engine.
Section WithExternal.
Context `{External}.
Import Py Pydub.

Record DSPEngine := { sample_rate : Z }.

(** [DSPEngine()]: the default rate of [__init__]. *)
Definition DSPEngine_default : DSPEngine := {| sample_rate := 48000 |}.

(** numpy's elementwise binary operators on one-dimensional arrays:
    equal shapes, or one operand of length 1 stretched to the other. *)
Definition broadcast2 (op : F -> F -> F) (x y : list F) : result (list F) :=
  if (length x =? length y)%nat then ok (zip_with op x y)
  else match x, y with
       | [a], _ => ok (map (op a) y)
       | _, [b] => ok (map (fun a => op a b) x)
       | _, _ =>
           raise (ValueError "operands could not be broadcast together")
       end.

(** [np.random.normal(loc, scale, size)]. *)
Definition np_random_normal (loc sc : float) (size : Z) : M (list F) :=
  fun w =>
    let d := random_normal (rng w) loc sc (Z.to_nat size) in
    (ok (fst d), mkWorld (log w) (files w) (snd d)).

(** [np.linspace(start, stop, num)]. *)
Definition np_linspace (start stop num : Z) : result (list F) :=
  if num <? 0
  then raise (ValueError ("Number of samples, " +:+ pretty num
                          +:+ ", must be non-negative."))
  else ok (linspace start stop (Z.to_nat num)).

(** [scipy.signal.butter(N, [low, high], btype='band')]. *)
Definition butter (N : Z) (low high : float)
    : result (list float * list float) :=
  if (low <=? 0)%float || (high <=? 0)%float
     || (1 <=? low)%float || (1 <=? high)%float
  then raise (ValueError
                "Digital filter critical frequencies must be 0 < Wn < 1")
  else ok (butter_ba N low high).

(** [scipy.signal.filtfilt(b, a, x)] with the default odd padding of
    [3 * max(len(a), len(b))] samples. *)
Definition filtfilt (b a : list float) (x : list F) : result (list F) :=
  let edge := 3 * Z.max (len a) (len b) in
  if len x <=? edge
  then raise (ValueError
                ("The length of the input vector x must be greater than padlen, which is "
                 +:+ pretty edge +:+ "."))
  else ok (filtfilt_values b a x).

(** [scipy.signal.fftconvolve(x, y, mode='full')]: an empty operand gives
    an empty array. *)
Definition fftconvolve (x y : list F) : list F :=
  match x, y with
  | [], _ | _, [] => []
  | _, _ => fftconvolve_values x y
  end.

(** [_to_numpy]. *)
Definition _to_numpy (audio : AudioSegment) : list F :=
  map (fun s => fdiv_int (of_int s)
                  (2 ^ (8 * width_bytes (sample_width audio) - 1)))
      (get_array_of_samples audio).

(** [_to_audio_segment].  The arrays handed to it are one-dimensional, so
    [channels] is [1]; [data.astype(np.int32).tobytes()] is four bytes per
    item whatever [original_audio.sample_width] is. *)
Definition _to_audio_segment (self : DSPEngine) (data : list F)
    (original_audio : AudioSegment) : result AudioSegment :=
  let w := sample_width original_audio in
  let data :=
    map (fun x => astype_int32 (fmul_int x (2 ^ (8 * width_bytes w - 1) - 1)))
        data in
  AudioSegment_init (Bytes.tobytes 4 data) w (sample_rate self) Mono.

(** [int(len(data) * target_sr / self.sample_rate)] of [pitch_shift_432hz]. *)
Definition num_samples (self : DSPEngine) (n : Z) : result Z :=
  let target_sr := (float_of_Z (sample_rate self) * (432 / 440))%float in
  if sample_rate self =? 0
  then raise (Exn "ZeroDivisionError" "float division by zero")
  else ok (py_int (float_of_Z n * target_sr
                   / float_of_Z (sample_rate self))%float).

(** [pitch_shift_432hz]. *)
Definition pitch_shift_432hz (self : DSPEngine) (audio : AudioSegment)
    : M AudioSegment :=
  let! _ := logger_info [Txt "Applying 432Hz pitch shift..."] in
  let data := _to_numpy audio in
  let! n := lift (num_samples self (len data)) in
  let! shifted_data := lift (resample data n) in
  let! seg := lift (_to_audio_segment self shifted_data audio) in
  lift (set_frame_rate (sample_rate self) seg).

(** The fixed gain-reduction ratio of [apply_deesser]. *)
Definition ratio : Z := 6.

(** [apply_deesser]. *)
Definition apply_deesser (self : DSPEngine) (audio : AudioSegment)
    (threshold : float) : M AudioSegment :=
  let! _ := logger_info [Txt "Applying de-esser..."] in
  let data := _to_numpy audio in
  let nyquist := (float_of_Z (sample_rate self) / 2)%float in
  if (nyquist =? 0)%float
  then throw (Exn "ZeroDivisionError" "float division by zero")
  else
    let low := (4000 / nyquist)%float in
    let high := (8000 / nyquist)%float in
    let! ba := lift (butter 4 low high) in
    let! sibilants := lift (filtfilt (fst ba) (snd ba) data) in
    let compressed_sibilants :=
      map (fun s => if fgt (fabs s) threshold then fdiv_int s ratio else s)
          sibilants in
    let! diff := lift (broadcast2 fsub sibilants compressed_sibilants) in
    let! processed_data := lift (broadcast2 fsub data diff) in
    lift (_to_audio_segment self processed_data audio).

(** [add_reverb]. *)
Definition add_reverb (self : DSPEngine) (audio : AudioSegment)
    (wet_mix : float) : M AudioSegment :=
  let! _ := logger_info [Txt "Adding ambient reverb..."] in
  let data := _to_numpy audio in
  let! t := lift (np_linspace 0 5 (sample_rate self * 5)) in
  let! noise := np_random_normal 0 0.1 (len t) in
  let! ir := lift (broadcast2 fmul
                     (map fexp (map (fun x => fmul_int x (-2)) t)) noise) in
  let reverb_data := slice (fftconvolve data ir) 0 (len data) in
  let! mixed_data :=
    lift (broadcast2 fadd (map (fscale (1 - wet_mix)%float) data)
                          (map (fscale wet_mix) reverb_data)) in
  lift (_to_audio_segment self mixed_data audio).

(** [stereo_samples[0::2] = l; stereo_samples[1::2] = r] for two arrays of
    one length. *)
Fixpoint interleave (l r : list Z) : list Z :=
  match l, r with
  | x :: l', y :: r' => x :: y :: interleave l' r'
  | _, _ => []
  end.

(** [stereo_widen]. *)
Definition stereo_widen (self : DSPEngine) (audio : AudioSegment)
    (delay_ms : Z) : M AudioSegment :=
  let! _ := logger_info [Txt "Applying stereo widening..."] in
  let left := audio in
  let! right := lift (append (silent delay_ms (frame_rate audio)) audio) in
  let! n := lift (seg_len audio) in
  let! right := lift (getitem_slice right 0 n) in
  let l_samples := get_array_of_samples left in
  let r_samples := get_array_of_samples right in
  let min_len := Z.min (len l_samples) (len r_samples) in
  let l_samples := slice l_samples 0 min_len in
  let r_samples := slice r_samples 0 min_len in
  let stereo_samples := interleave l_samples r_samples in
  lift (AudioSegment_init
          (Bytes.tobytes (width_nat (sample_width audio)) stereo_samples)
          (sample_width audio) (frame_rate audio) Stereo).

(** [master_limiter]. *)
Definition master_limiter (self : DSPEngine) (audio : AudioSegment)
    (target_lufs : float) : M AudioSegment :=
  let! _ := logger_info [Txt "Applying final master limiter to ";
                         Num target_lufs; Txt " LUFS..."] in
  ret (normalize audio 0.1).

(** The body of the loop of [process_chain]: one clip processed and
    appended, with its pause, to [combined]. *)
Definition chain_clip (self : DSPEngine) (combined : AudioSegment)
    (path : string) : M AudioSegment :=
  let! vocal := from_wav path in
  let! vocal := pitch_shift_432hz self vocal in
  let! vocal := apply_deesser self vocal 0.1 in
  let! vocal := add_reverb self vocal 0.4 in
  let! vocal := stereo_widen self vocal 15 in
  let! padded := lift (append vocal (silent 2000 11025)) in
  lift (append combined padded).

Fixpoint chain_loop (self : DSPEngine) (combined : AudioSegment)
    (vocal_paths : list string) : M AudioSegment :=
  match vocal_paths with
  | [] => ret combined
  | path :: rest =>
      let! combined := chain_clip self combined path in
      chain_loop self combined rest
  end.

(** [process_chain]. *)
Definition process_chain (self : DSPEngine) (vocal_paths : list string)
    : M AudioSegment :=
  let! combined := chain_loop self empty vocal_paths in
  master_limiter self combined (-16.0).

Definition audio_output_path : string := "output/temp_processed_audio.wav".

(** Stage 3 of [run_pipeline] inside its [try]/[except]: the chain runs,
    then its result is exported; any exception is logged and re-raised. *)
Definition run_pipeline_dsp (vocal_paths : list string) : M string :=
  try_except
    (let! _ := logger_info [Txt "--- Stage 3: DSP Processing ---"] in
     let dsp := DSPEngine_default in
     let! processed_audio := process_chain dsp vocal_paths in
     let! _ := export processed_audio audio_output_path in
     ret audio_output_path)
    (fun e =>
       let! _ := logger_error [Txt "❌ Pipeline failed: "; Txt (exn_msg e)] in
       throw e).

End WithExternal.
End Engine.

(** ** Vocabulary of the statements *)

(** The value a computation returned, or the exception it raised. *)
Definition outcome {A} (c : M A) (w : World) : result A := fst (c w).

(** [r] is an exception of class [cls]. *)
Definition fails_with {A} (cls : string) (r : result A) : Prop :=
  exists msg, r = raise (Exn cls msg).

(** [c] returns from [w] a value satisfying [P], leaving the files alone. *)
Definition returns {A} (c : M A) (w : World) (P : A -> Prop) : Prop :=
  exists a w', c w = (ok a, w') /\ files w' = files w /\ P a.

(** Every exception [c] can raise has its class in [classes]. *)
Definition raises_only {A} (classes : list string) (c : M A) : Prop :=
  forall w e w', c w = (raise e, w') -> In (exn_class e) classes.

(** Duration of a segment in frames, as the Program's length is measured. *)
Definition frames (a : AudioSegment) : Z := Pydub.frame_count a.

(** The two float tests [apply_deesser] makes on its band before any
    filtering, for an engine of rate [sr]: the Nyquist frequency is not
    zero and [butter] rejects [4000 / nyquist, 8000 / nyquist]. *)
Definition band_rejected (sr : Z) : bool :=
  let nyquist := (Py.float_of_Z sr / 2)%float in
  let low := (4000 / nyquist)%float in
  let high := (8000 / nyquist)%float in
  negb (nyquist =? 0)%float
  && ((low <=? 0)%float || (high <=? 0)%float
      || (1 <=? low)%float || (1 <=? high)%float).

Section StageVocabulary.
Context `{External}.
Import Py Pydub Engine.

(** What every stage promises about the segment it returns: the original's
    sample width, the engine's rate, one channel, and [4 * n / sample_width]
    samples for an array of [n] items. *)
Definition encoded (self : DSPEngine) (orig : AudioSegment) (n : Z)
    (seg : AudioSegment) : Prop :=
  sample_width seg = sample_width orig /\
  frame_rate seg = sample_rate self /\
  channels seg = Mono /\
  len (samples seg) * width_bytes (sample_width orig) = 4 * n.

End StageVocabulary.

(** [c] leaves the files alone, whether it returns or raises. *)
Definition keeps_files {A} (c : M A) : Prop :=
  forall w, files (snd (c w)) = files w.

Section ChainVocabulary.
Context `{External}.
Import Py Pydub Engine.

(** The pause appended after each clip, once pydub has brought it to the
    clip's format (stereo, 48 kHz, [w] bytes per sample). *)
Definition gap_samples (w : width) : list Z :=
  map (lin2lin W2 w)
      (ratecv (samples (set_channels Stereo (silent 2000 11025)))
              W2 Stereo 11025 48000).

(** The format of the Program while it is assembled: still empty, or stereo
    at 48 kHz with [w] bytes per sample. *)
Definition assembling (w : width) (combined : AudioSegment) : Prop :=
  combined = empty \/
  (channels combined = Stereo /\ frame_rate combined = 48000 /\
   sample_width combined = w).

(** The first clip of [vocal_paths] on which the loop body raises, counted
    from [i], with the exception raised there. *)
Fixpoint first_failure (self : DSPEngine) (combined : AudioSegment)
    (vocal_paths : list string) (i : nat) (w : World) : option (nat * exn) :=
  match vocal_paths with
  | [] => None
  | path :: rest =>
      match chain_clip self combined path w with
      | (inl e, _) => Some (i, e)
      | (inr combined', w') => first_failure self combined' rest (S i) w'
      end
  end.

(** The failing clip of a run of [run_pipeline_dsp], counted from 1. *)
Definition failing_clip (vocal_paths : list string) (w : World)
    : option (nat * exn) :=
  first_failure DSPEngine_default empty vocal_paths 1
    (snd (logger_info [Txt "--- Stage 3: DSP Processing ---"] w)).

(** What a failed run reports: the exception that reaches the caller and
    the record its handler logged. *)
Definition failure_report (vocal_paths : list string) (w : World)
    : result string * option LogRecord :=
  (outcome (run_pipeline_dsp vocal_paths) w,
   last (log (snd (run_pipeline_dsp vocal_paths w)))).

End ChainVocabulary.

(** Frames the widener of the default engine returns for a mono clip of
    [F] frames at 48 kHz, when the float computations of pydub's slice fall
    as they do for every clip longer than the delay. *)
Definition widened_frames (F : Z) : option Z :=
  let D := Z.max 0 (Pydub.silent_frames 15 48000) in
  match Pydub.ms_of_frames F 48000, Pydub.ms_of_frames (D + F) 48000 with
  | inr n, inr nr =>
      let fe := Py.py_int (Pydub.frames_of_ms 48000 n) in
      if (0 <=? n) && (n <=? nr) && (0 <=? fe) && (fe <=? D + F)
         && (Py.py_int (Pydub.frames_of_ms 48000 0) =? 0)
      then Some (Z.min F fe)
      else None
  | _, _ => None
  end.

(** Frames of one clip of [F] samples and [w] bytes per sample after the
    four stages of the default engine: each of the first three stages
    multiplies the sample count by [4 / w]. *)
Definition clip_frames (w : width) (F : Z) : option Z :=
  let k := 4 / width_bytes w in
  match Engine.num_samples Engine.DSPEngine_default F with
  | inr n =>
      if (0 <? F) && (0 <? n) && (27 <? k * n)
      then widened_frames (k * (k * (k * n)))
      else None
  | inl _ => None
  end.

(** [s] is a signed sample of [w] bytes. *)
Definition fits (w : width) (s : Z) : Prop :=
  - 2 ^ (8 * width_bytes w - 1) <= s < 2 ^ (8 * width_bytes w - 1).

(** The float [x] is not a negative number: zero, positive, infinite or
    not a number. *)
Definition not_negative (x : float) : Prop :=
  match Prim2SF x with
  | S754_finite s _ _ => s = false
  | _ => True
  end.

(** ** Vocabulary of the further properties *)

(** [f] holds of [z], [z + 1], ..., [fuel] integers in all. *)
Fixpoint all_from (f : Z -> bool) (z : Z) (fuel : nat) : bool :=
  match fuel with
  | O => true
  | S k => if f z then all_from f (z + 1) k else false
  end.

(** [len(seg)], in milliseconds, of a segment of [F] frames at 48 kHz. *)
Definition clip_ms (F : Z) : Z :=
  match Pydub.ms_of_frames F 48000 with
  | inr n => n
  | inl _ => 0
  end.

(** [n] is [F / 48] to the nearest integer (either neighbour on a tie). *)
Definition nearest_ms (F n : Z) : bool :=
  let q := F / 48 in
  let r := F mod 48 in
  if r <? 24 then n =? q
  else if 24 <? r then n =? q + 1
  else (n =? q) || (n =? q + 1).

(** Frames the widener keeps of a clip of [F] frames at 48 kHz. *)
Definition kept_frames (F : Z) : Z := Z.min F (48 * clip_ms F).

(** ** Tables of float computations

    [int()] and [round()] with the divisions by a power of two done by
    shifts, and the checks that run them over a range of integers while
    carrying the quotient and the remainder the result is compared with. *)
Definition floor_shift (m : positive) (e : Z) : Z :=
  match e with
  | Zneg p => Z.shiftr (Zpos m) (Zpos p)
  | _ => Py.floor_mag m e
  end.

Definition py_int_shift (x : float) : Z :=
  match Prim2SF x with
  | S754_finite s m e => if s then - floor_shift m e else floor_shift m e
  | _ => 0
  end.

Definition round_shift (m : positive) (e : Z) : Z :=
  match e with
  | Zneg p =>
      let d := 2 ^ Zpos p in
      let q := Z.shiftr (Zpos m) (Zpos p) in
      let r := Z.land (Zpos m) (Z.ones (Zpos p)) in
      if 2 * r <? d then q
      else if d <? 2 * r then q + 1
      else if Z.even q then q else q + 1
  | _ => Py.floor_mag m e
  end.

Definition py_round_shift (x : float) : Z :=
  match Prim2SF x with
  | S754_finite s m e => if s then - round_shift m e else round_shift m e
  | _ => 0
  end.

(** For [F = 48 * q + r], [F + 1], ...: the length in milliseconds of [F]
    frames at 48 kHz is [F / 48] to the nearest integer. *)
Fixpoint ms_table (F q r : Z) (fuel : nat) : bool :=
  match fuel with
  | O => true
  | S k =>
      let n :=
        py_round_shift (1000 * (Py.float_of_Z F / Py.float_of_Z 48000))%float in
      (if r <? 24 then n =? q
       else if 24 <? r then n =? q + 1
       else (n =? q) || (n =? q + 1))
      && (if r =? 47 then ms_table (F + 1) (q + 1) 0 k
          else ms_table (F + 1) q (r + 1) k)
  end.

(** For [n] with [n * 432 = 440 * q + r], [n + 1], ...: the sample count of
    the pitch shifter of the default engine is [n * 432 / 440]. *)
Fixpoint count_table (n q r : Z) (fuel : nat) : bool :=
  match fuel with
  | O => true
  | S k =>
      (py_int_shift (Py.float_of_Z n
                     * (Py.float_of_Z 48000 * (432 / 440))
                     / Py.float_of_Z 48000)%float =? q)
      && (if r <? 8 then count_table (n + 1) q (r + 432) k
          else count_table (n + 1) (q + 1) (r - 8) k)
  end.

(** [n] milliseconds at 48 kHz are [48 * n] frames. *)
Definition frames_checked (n : Z) : bool :=
  py_int_shift (Pydub.frames_of_ms 48000 n) =? 48 * n.


(** Frames of processed clips in the Program of 32-bit clips: each clip is
    pitch-shifted to [floor(n * 432 / 440)] samples, of which the widener
    keeps [kept_frames]. *)
Definition program_frames (clips : list AudioSegment) : Z :=
  foldr (fun a s => kept_frames (Py.len (samples a) * 432 / 440) + s) 0 clips.

(** Samples of all the clips after the pitch shift alone. *)
Definition shifted_frames (clips : list AudioSegment) : Z :=
  foldr (fun a s => Py.len (samples a) * 432 / 440 + s) 0 clips.

(** ** Python strings

    A Python string is modelled as a Rocq string, one [ascii] per
    character; dictionary keys with other characters are only compared,
    never measured or cut. *)
Module PyStr.

(** [s.replace(old, new)] for a non-empty [old]: the text is scanned from
    the left; where [old] starts, [new] is written and the scan resumes
    after the occurrence ([skip] counts what is left of it to pass). *)
Fixpoint replace_from (old new : string) (skip : nat) (s : string) : string :=
  match s with
  | EmptyString => EmptyString
  | String c rest =>
      match skip with
      | S k => replace_from old new k rest
      | O =>
          if String.prefix old s
          then new +:+ replace_from old new (String.length old - 1) rest
          else String c (replace_from old new 0 rest)
      end
  end.

Definition str_replace (old new s : string) : string :=
  replace_from old new 0 s.

(** [s.split(sep)] for a separator of one character: never an empty
    list. *)
Fixpoint str_split (sep : ascii) (s : string) : list string :=
  match s with
  | EmptyString => [EmptyString]
  | String c rest =>
      if Ascii.eqb c sep then EmptyString :: str_split sep rest
      else match str_split sep rest with
           | p :: ps => String c p :: ps
           | [] => [String c EmptyString]
           end
  end.

(** [s[:n]]. *)
Definition str_slice_to (n : nat) (s : string) : string := substring 0 n s.

(** [f"{n:02d}"]: decimal, padded with zeros to two characters. *)
Definition format_02d (n : Z) : string :=
  let s := pretty n in
  if (String.length s <? 2)%nat then "0" +:+ s else s.

End PyStr.

(** ** The synthesizer's text helpers *)
Module Vocal.
Import PyStr.

(** [VOICE_MAPPING]. *)
Definition VOICE_MAPPING : gmap string string :=
  <["segurança_transferida" := "21m00Tcm4TlvDq8ikWAM"]>
    (<["declaração_de_shalom" := "AZnzlk1XhkDPsW8n3W8X"]>
       (<["passividade_sagrada" := "EXAVITQu4vr4xnNLMQbo"]> ∅)).

(** [select_voice_profile]. *)
Definition select_voice_profile (emotion : string) : string :=
  default "21m00Tcm4TlvDq8ikWAM" (VOICE_MAPPING !! emotion).

(** The pause written for an ellipsis: [ <break time="800ms"/> ], with a
    space on either side. *)
Definition break_tag : string :=
  " <break time=" +:+ String "034"%char ("800ms" +:+ String "034"%char "/> ").

(** [apply_prosody_tags]. *)
Definition apply_prosody_tags (text : string) : string :=
  str_replace "..." break_tag text.

End Vocal.

(** ** The parser's instructions and the chapter list *)
Module Parser.


(** One item of [extract_vocal_instructions]: the dict with the keys
    [text], [emotion], [reference] and [frequency]. *)
Record Instruction := {
  text : string;
  emotion : string;
  reference : string;
  frequency : Z
}.


End Parser.

Module Seo.
Import PyStr Parser.

(** The timestamp of [generate_description]: two [divmod]s and the
    f-string. *)
Definition timestamp (current_time : Z) : string :=
  let minutes := current_time / 60 in
  let seconds := current_time mod 60 in
  let hours := minutes / 60 in
  let minutes := minutes mod 60 in
  format_02d hours +:+ ":" +:+ format_02d minutes +:+ ":" +:+ format_02d seconds.

(** One line of the chapter list. *)
Definition chapter_line (current_time : Z) (verse : Instruction) : string :=
  timestamp current_time +:+ " - " +:+ reference verse +:+ " | "
  +:+ str_slice_to 30 (text verse) +:+ "..." +:+ String "010"%char EmptyString.

(** The loop of [generate_description]. *)
Fixpoint verse_list_loop (verses : list Instruction) (verse_list : string)
    (current_time : Z) : string :=
  match verses with
  | [] => verse_list
  | verse :: rest =>
      verse_list_loop rest (verse_list +:+ chapter_line current_time verse)
                      (current_time + 30)
  end.

(** [verse_list] when the loop of [generate_description] is over. *)
Definition verse_list (verses : list Instruction) : string :=
  verse_list_loop verses "" 0.

(** The theme [generate_all] passes to [generate_title]. *)
Definition theme (verses : list Instruction) : string :=
  match verses with
  | verse :: _ => hd "" (str_split " "%char (reference verse))
  | [] => "Scripture"
  end.

End Seo.

(** [sub] occurs in [s]: Python's [sub in s]. *)
Definition contains (sub s : string) : Prop :=
  exists a b, s = a +:+ sub +:+ b.


(** The fields of a timestamp: hours, minutes and seconds of
    [current_time] seconds. *)
Definition hms (current_time : Z) : Z * Z * Z :=
  (current_time / 60 / 60, current_time / 60 mod 60, current_time mod 60).

(** Whether [s] starts with one dot, with two. *)
Definition starts1 (s : string) : bool := String.prefix "." s.
Definition starts2 (s : string) : bool := String.prefix ".." s.

(** Whether [s] has an ellipsis: Python's ["..." in s]. *)
Fixpoint has_ellipsis (s : string) : bool :=
  match s with
  | EmptyString => false
  | String _ rest => String.prefix "..." s || has_ellipsis rest
  end.
(** ** The interface is inhabited

    An instance with exact rational arithmetic on array items, and kernels
    that only have the shapes the interface asks for (nearest-sample
    resampling, an all-pass filter, convolution with a unit impulse, a
    generator that always draws the mean).  It serves to run the engine on
    concrete inputs; every general theorem below is stated for all
    instances. *)
Module Placeholder.
Import Py.

Definition Q_of_float (x : float) : Q :=
  match Prim2SF x with
  | S754_finite s m e =>
      let q := match e with
               | Zneg p => Zpos m # (2 ^ p)%positive
               | _ => inject_Z (Zpos m * 2 ^ e)
               end in
      if s then Qopp q else q
  | _ => 0%Q
  end.

Definition trunc32 (x : Q) : Z :=
  (Z.quot (Qnum x) (Zpos (Qden x)) + 2 ^ 31) mod 2 ^ 32 - 2 ^ 31.

(** The integers [z, z + 1, ...], [n] of them. *)
Fixpoint count_from (z : Z) (n : nat) : list Z :=
  match n with
  | O => []
  | S n' => z :: count_from (z + 1) n'
  end.

Definition ph_linspace (a b : Z) (n : nat) : list Q :=
  let step := (inject_Z (b - a) / inject_Z (Z.of_nat n - 1))%Q in
  map (fun i => (inject_Z a + inject_Z i * step)%Q) (count_from 0 n).

Definition ph_resample (x : list Q) (num : Z) : result (list Q) :=
  match x with
  | [] => raise (ValueError "invalid number of data points (0) specified")
  | x0 :: _ =>
      if num <=? 0
      then raise (ValueError "invalid number of data points (0) specified")
      else let n := len x in
           ok (map (fun i => nth (Z.to_nat (i * n / num)) x x0)
                   (count_from 0 (Z.to_nat num)))
  end.

Definition ph_ratecv (d : list Z) (w : width) (c : layout) (i o : Z) : list Z :=
  let frames := len d / nchannels c in
  repeat_seq [0] (((frames - 1) * o / i + 1) * nchannels c).

Lemma length_count_from z n : length (count_from z n) = n.
Proof. revert z. induction n as [|n IH]; intros z; cbn; [|rewrite IH]; done. Qed.

Lemma trunc32_range x : - 2 ^ 31 <= trunc32 x < 2 ^ 31.
Proof.
  unfold trunc32.
  pose proof (Z.mod_pos_bound (Qnum x ÷ Z.pos (Qden x) + 2 ^ 31) (2 ^ 32)).
  lia.
Qed.

Lemma resample_spec (x : list Q) (num : Z) :
  x <> [] -> 0 < num -> exists y, ph_resample x num = ok y /\ len y = num.
Proof.
  intros Hx Hn. destruct x as [|x0 x]; [congruence|].
  unfold ph_resample. destruct (Z.leb_spec num 0) as [?|_]; [lia|].
  eexists; split; [reflexivity|].
  unfold len. rewrite length_map, length_count_from. lia.
Qed.

#[export] Program Instance placeholder : External := {|
  F := Q;
  of_int := inject_Z;
  fdiv_int x k := (x / inject_Z k)%Q;
  fmul_int x k := (x * inject_Z k)%Q;
  fscale c x := (Q_of_float c * x)%Q;
  fadd := Qplus;
  fsub := Qminus;
  fmul := Qmult;
  fabs := Qabs;
  fexp x := x;
  fgt x t := negb (Qle_bool x (Q_of_float t));
  astype_int32 := trunc32;
  linspace := ph_linspace;
  random_normal g loc sc n := (replicate n (Q_of_float loc), g + 1);
  resample := ph_resample;
  butter_ba N lo hi :=
    (replicate (Z.to_nat (2 * N + 1)) lo, replicate (Z.to_nat (2 * N + 1)) hi);
  filtfilt_values b a x := x;
  fftconvolve_values x y := (x ++ replicate (length y - 1) 0%Q)%list;
  pow10 x := x;
  log10 x := x;
  ratecv := ph_ratecv;
  audioop_mul d w k := d
|}.
Next Obligation. exact trunc32_range. Qed.
Next Obligation. intros. unfold ph_linspace. now rewrite length_map, length_count_from. Qed.
Next Obligation. intros. cbn. now rewrite length_replicate. Qed.
Next Obligation. exact resample_spec. Qed.
Next Obligation.
  intros. cbn. unfold len. rewrite !length_replicate. lia.
Qed.
Next Obligation. reflexivity. Qed.
Next Obligation.
  intros x y Hx Hy. unfold len. rewrite length_app, length_replicate.
  destruct y; [congruence|]. cbn [length]. lia.
Qed.
Next Obligation. reflexivity. Qed.

End Placeholder.
(** ** Inputs used in the examples *)

(** A fresh world: nothing logged, no file, generator state 0. *)
Definition w0 : World := mkWorld [] ∅ 0.

(** The ramp 1, 2, ..., n as 16-bit PCM at 48 kHz. *)
Definition ramp16 (c : layout) (n : nat) : AudioSegment :=
  Segment (map Z.of_nat (seq 1 n)) W2 48000 c.

(** [n] samples of digital silence. *)
Definition zeros (w : width) (c : layout) (n : Z) : AudioSegment :=
  Segment (Py.repeat_seq [0] n) w 48000 c.


(** The exception [filtfilt] raises on a clip of at most 27 samples. *)
Definition too_short_for_filter : exn :=
  ValueError
    "The length of the input vector x must be greater than padlen, which is 27.".

(** A ramp as 32-bit PCM (what pydub makes of a 24-bit WAV file). *)
Definition ramp32 (n : nat) : AudioSegment :=
  Segment (map Z.of_nat (seq 1 n)) W4 48000 Mono.

(** A disk with a clip of 10 samples and a clip of 100 samples. *)
Definition disk9 : gmap string File :=
  <["short.wav" := WavFile (ramp32 10)]>
    (<["long.wav" := WavFile (ramp32 100)]> ∅).

Definition w9 : World := mkWorld [] disk9 0.

(** A disk with 16-bit mono clips of 10, 8 and 12 seconds at 48 kHz. *)
Definition disk1 : gmap string File :=
  <["clip10.wav" := WavFile (zeros W2 Mono 480000)]>
    (<["clip8.wav" := WavFile (zeros W2 Mono 384000)]>
       (<["clip12.wav" := WavFile (zeros W2 Mono 576000)]> ∅)).

Definition w1 : World := mkWorld [] disk1 0.

(** * Properties *)

(** ** Sequences and bytes *)
Section Sequences.
Import Py.
Context {A : Type}.
Implicit Types l : list A.

Lemma len_nonneg l : 0 <= len l.
Proof. unfold len. lia. Qed.

Lemma len_app l1 l2 : len (l1 ++ l2) = len l1 + len l2.
Proof. unfold len. rewrite length_app. lia. Qed.

Lemma len_nil_iff l : len l = 0 <-> l = [].
Proof. unfold len. destruct l; cbn; split; intros; done. Qed.

Lemma len_slice_prefix l n :
  0 <= n -> len (slice l 0 n) = Z.min n (len l).
Proof.
  intros Hn. unfold slice, clamp_index.
  pose proof (len_nonneg l).
  destruct (Z.ltb_spec 0 0) as [?|_]; [lia|].
  destruct (Z.ltb_spec n 0) as [?|_]; [lia|].
  rewrite (Z.min_l 0) by lia. change (Z.to_nat 0) with 0%nat. rewrite drop_0.
  unfold len in *. rewrite length_take. lia.
Qed.

Lemma slice_prefix_all l n : len l <= n -> slice l 0 n = l.
Proof.
  intros Hn. unfold slice, clamp_index.
  pose proof (len_nonneg l).
  destruct (Z.ltb_spec 0 0) as [?|_]; [lia|].
  destruct (Z.ltb_spec n 0) as [?|_]; [lia|].
  rewrite (Z.min_l 0) by lia. change (Z.to_nat 0) with 0%nat. rewrite drop_0.
  apply take_ge. unfold len in *. lia.
Qed.

Lemma length_join_replicate l (n : nat) :
  length (concat (replicate n l)) = (n * length l)%nat.
Proof.
  induction n as [|n IH]; [done|].
  cbn [replicate concat]. rewrite length_app, IH. lia.
Qed.

Lemma len_repeat_seq l k : len (repeat_seq l k) = len l * Z.max 0 k.
Proof. unfold repeat_seq, len. rewrite length_join_replicate. lia. Qed.

End Sequences.

Section ByteLemmas.
Import Py Bytes.

Lemma length_le_bytes n z : length (le_bytes n z) = n.
Proof. revert z. induction n as [|n IH]; intros z; cbn; [|rewrite IH]; done. Qed.

Lemma length_tobytes w xs : length (tobytes w xs) = (w * length xs)%nat.
Proof.
  unfold tobytes. induction xs as [|x xs IH]; cbn; [lia|].
  rewrite length_app, length_le_bytes. unfold tobytes in IH.
  cbn in IH. rewrite IH. lia.
Qed.

Lemma length_chunks_aux k w bs : length (chunks_aux k w bs) = k.
Proof. revert bs. induction k as [|k IH]; intros bs; cbn; [|rewrite IH]; done. Qed.

Lemma length_frombytes w bs : length (frombytes w bs) = (length bs / w)%nat.
Proof. unfold frombytes, chunks. now rewrite length_map, length_chunks_aux. Qed.

(** Items written [m] bytes wide and read back [w] bytes wide: [m / w] times
    as many when [w] divides [m]. *)
Lemma len_reinterpret (m w : nat) xs :
  (0 < w)%nat -> (w | m)%nat ->
  len (frombytes w (tobytes m xs)) * Z.of_nat w = Z.of_nat m * len xs.
Proof.
  intros Hw [q ->]. unfold len.
  rewrite length_frombytes, length_tobytes.
  replace (q * w * length xs)%nat with (q * length xs * w)%nat by lia.
  rewrite Nat.div_mul by lia. lia.
Qed.

End ByteLemmas.

(** ** The monad *)
Section MonadLemmas.
Context {A B : Type}.

Lemma bind_ok (c : M A) (k : A -> M B) w a w' :
  c w = (ok a, w') -> bind c k w = k a w'.
Proof. unfold bind. now intros ->. Qed.

Lemma bind_raise (c : M A) (k : A -> M B) w e w' :
  c w = (raise e, w') -> bind c k w = (raise e, w').
Proof. unfold bind. now intros ->. Qed.

Lemma returns_bind (c : M A) (k : A -> M B) w (P : A -> Prop) (Q : B -> Prop) :
  returns c w P ->
  (forall a w', files w' = files w -> P a -> returns (k a) w' Q) ->
  returns (bind c k) w Q.
Proof.
  intros (a & w1 & Hc & Hf & HP) Hk.
  destruct (Hk a w1 Hf HP) as (b & w2 & Hk' & Hf' & HQ).
  exists b, w2. rewrite (bind_ok _ _ _ _ _ Hc). split; [done|]. split; [congruence|done].
Qed.

Lemma returns_lift (r : result A) (a : A) w (P : A -> Prop) :
  r = ok a -> P a -> returns (lift r) w P.
Proof. intros -> HP. exists a, w. done. Qed.

Lemma returns_ret (a : A) w (P : A -> Prop) : P a -> returns (ret a) w P.
Proof. intros HP. exists a, w. done. Qed.

Lemma returns_weaken (c : M A) w (P Q : A -> Prop) :
  returns c w P -> (forall a, P a -> Q a) -> returns c w Q.
Proof. intros (a & w' & ? & ? & ?) HPQ. exists a, w'. auto. Qed.

End MonadLemmas.

Lemma returns_info msg w : returns (logger_info msg) w (fun _ => True).
Proof. eexists tt, _. done. Qed.

(** ** Building and reading segments *)
Section SegmentLemmas.
Context `{External}.
Import Py Pydub Engine.

Lemma width_bytes_pos w : 0 < width_bytes w.
Proof. destruct w; cbn; lia. Qed.

Lemma width_divides_4 w : (width_nat w | 4)%nat.
Proof. destruct w; [exists 4%nat|exists 2%nat|exists 1%nat]; done. Qed.

Lemma nchannels_pos c : 0 < nchannels c.
Proof. destruct c; cbn; lia. Qed.

Lemma length_to_numpy audio : length (_to_numpy audio) = length (samples audio).
Proof. unfold _to_numpy, get_array_of_samples. now rewrite length_map. Qed.

Lemma len_to_numpy audio : len (_to_numpy audio) = len (samples audio).
Proof. unfold len. now rewrite length_to_numpy. Qed.

(** [_to_audio_segment] never raises, and from [n] array items it builds a
    mono segment of [4 * n / sample_width] samples. *)
Lemma to_audio_segment_spec self data orig :
  exists seg,
    _to_audio_segment self data orig = ok seg /\
    sample_width seg = sample_width orig /\
    frame_rate seg = sample_rate self /\
    channels seg = Mono /\
    len (samples seg) * width_bytes (sample_width orig) = 4 * len data.
Proof.
  unfold _to_audio_segment, AudioSegment_init.
  set (ints := map _ data).
  assert (Hlen : len (Bytes.tobytes 4 ints) = 4 * len data).
  { unfold len, ints. rewrite length_tobytes, length_map. lia. }
  assert (Hmod : len (Bytes.tobytes 4 ints)
                 mod (width_bytes (sample_width orig) * nchannels Mono) = 0).
  { rewrite Hlen. cbn [nchannels]. rewrite Z.mul_1_r.
    destruct (sample_width orig); cbn [width_bytes].
    - apply Z.mod_1_r.
    - replace (4 * len data) with (2 * len data * 2) by lia. apply Z.mod_mul. lia.
    - rewrite Z.mul_comm. apply Z.mod_mul. lia. }
  rewrite Hmod. cbn [Z.eqb].
  eexists; split; [reflexivity|]. cbn [sample_width frame_rate channels samples].
  repeat split.
  assert (Hi : len ints = len data) by (unfold ints, len; now rewrite length_map).
  pose proof (len_reinterpret 4 (width_nat (sample_width orig)) ints) as Hr.
  rewrite Hi in Hr.
  destruct (sample_width orig); unfold width_nat in *; cbn [width_bytes] in *;
    apply Hr; (lia || (eexists; reflexivity) || idtac).
  - exists 4%nat; done.
  - exists 2%nat; done.
  - exists 1%nat; done.
Qed.

(** Corollary for a 16-bit original: twice as many samples as array items. *)
Lemma to_audio_segment_16 self data orig :
  sample_width orig = W2 ->
  exists seg,
    _to_audio_segment self data orig = ok seg /\
    sample_width seg = W2 /\ frame_rate seg = sample_rate self /\
    channels seg = Mono /\ len (samples seg) = 2 * len data.
Proof.
  intros Hw. destruct (to_audio_segment_spec self data orig)
    as (seg & Hs & Hsw & Hfr & Hch & Hl).
  rewrite Hw in *. cbn [width_bytes] in Hl.
  exists seg. repeat split; try done. lia.
Qed.

End SegmentLemmas.

(** ** The stages, one by one *)
Section StageLemmas.
Context `{External}.
Import Py Pydub Engine.

Lemma set_frame_rate_same r a : frame_rate a = r -> set_frame_rate r a = ok a.
Proof. intros <-. unfold set_frame_rate. now rewrite Z.eqb_refl. Qed.

Lemma returns_to_audio_segment self data orig w n :
  len data = n ->
  returns (lift (_to_audio_segment self data orig)) w (encoded self orig n).
Proof.
  intros <-.
  destruct (to_audio_segment_spec self data orig) as (seg & Hs & Hp).
  eapply returns_lift; [exact Hs|exact Hp].
Qed.

Lemma pitch_shift_returns self audio w n :
  num_samples self (len (samples audio)) = ok n ->
  0 < n -> samples audio <> [] ->
  returns (pitch_shift_432hz self audio) w (encoded self audio n).
Proof.
  intros Hn Hpos Hne. unfold pitch_shift_432hz.
  eapply returns_bind; [apply returns_info|]. intros _ w1 _ _.
  rewrite len_to_numpy, Hn.
  eapply returns_bind; [eapply returns_lift with (P := eq n); done|].
  intros ? w2 _ <-.
  destruct (resample_spec (_to_numpy audio) n) as (y & Hy & Hly); [|done|].
  { intros E. apply Hne. apply len_nil_iff. rewrite <- len_to_numpy, E. done. }
  eapply returns_bind; [eapply returns_lift with (P := eq y); done|].
  intros ? w3 _ <-.
  eapply returns_bind; [apply returns_to_audio_segment, Hly|].
  intros seg w4 _ Hseg.
  eapply returns_lift; [|exact Hseg].
  apply set_frame_rate_same. apply Hseg.
Qed.

Lemma broadcast2_same op (x y : list F) :
  length x = length y -> broadcast2 op x y = ok (zip_with op x y).
Proof. intros E. unfold broadcast2. now rewrite E, Nat.eqb_refl. Qed.

(** The de-esser on an engine whose rate passes the two float tests of its
    band, for a clip longer than the filter's padding. *)
Lemma apply_deesser_returns self audio threshold w :
  let nyquist := (float_of_Z (sample_rate self) / 2)%float in
  (nyquist =? 0)%float = false ->
  butter 4 (4000 / nyquist) (8000 / nyquist)
    = ok (butter_ba 4 (4000 / nyquist) (8000 / nyquist))%float ->
  27 < len (samples audio) ->
  returns (apply_deesser self audio threshold) w
          (encoded self audio (len (samples audio))).
Proof.
  intros nyquist Hny Hb Hlen. unfold apply_deesser.
  eapply returns_bind; [apply returns_info|]. intros _ w1 _ _.
  fold nyquist. rewrite Hny, Hb.
  eapply returns_bind; [eapply returns_lift with (P := eq _); done|].
  intros ? w2 _ <-.
  destruct (butter_ba_length 4 (4000 / nyquist) (8000 / nyquist))%float
    as [Hlb Hla]; [lia|].
  unfold filtfilt. rewrite Hlb, Hla, len_to_numpy.
  destruct (Z.leb_spec (len (samples audio)) (3 * Z.max (2 * 4 + 1) (2 * 4 + 1)))
    as [?|_]; [lia|].
  eapply returns_bind; [eapply returns_lift with (P := eq _); done|].
  intros ? w3 _ <-.
  rewrite broadcast2_same by now rewrite length_map.
  eapply returns_bind; [eapply returns_lift with (P := eq _); done|].
  intros ? w4 _ <-.
  rewrite broadcast2_same
    by (rewrite length_zip_with, length_map, filtfilt_length; lia).
  eapply returns_bind; [eapply returns_lift with (P := eq _); done|].
  intros ? w5 _ <-.
  apply returns_to_audio_segment.
  unfold len. rewrite !length_zip_with, length_map, filtfilt_length.
  rewrite length_to_numpy. lia.
Qed.

End StageLemmas.

Section ReverbLemmas.
Context `{External}.
Import Py Pydub Engine.

Lemma returns_random_normal loc sc size w :
  returns (np_random_normal loc sc size) w
          (fun d => length d = Z.to_nat size).
Proof.
  unfold np_random_normal. eexists _, _. split; [reflexivity|].
  split; [done|]. apply random_normal_length.
Qed.

(** The truncated convolution has the length of the dry signal. *)
Lemma length_truncated_convolution (x y : list F) :
  y <> [] -> length (slice (fftconvolve x y) 0 (len x)) = length x.
Proof.
  intros Hy.
  assert (E : len (slice (fftconvolve x y) 0 (len x)) = len x);
    [|apply Nat2Z.inj; exact E].
  rewrite len_slice_prefix by apply len_nonneg.
  destruct x as [|a x]; [cbn; done|].
  destruct y as [|b y]; [done|].
  cbn [fftconvolve]. rewrite fftconvolve_length by done.
  pose proof (len_nonneg y). unfold len in *. cbn [length] in *. lia.
Qed.

Lemma add_reverb_returns self audio wet_mix w :
  0 < sample_rate self ->
  returns (add_reverb self audio wet_mix) w
          (encoded self audio (len (samples audio))).
Proof.
  intros Hsr. unfold add_reverb.
  eapply returns_bind; [apply returns_info|]. intros _ w1 _ _.
  unfold np_linspace.
  destruct (Z.ltb_spec (sample_rate self * 5) 0) as [?|_]; [lia|].
  eapply returns_bind; [eapply returns_lift with (P := eq _); done|].
  intros t w2 _ <-.
  eapply returns_bind; [apply returns_random_normal|].
  intros noise w3 _ Hnoise.
  assert (Ht : length (linspace 0 5 (Z.to_nat (sample_rate self * 5)))
               = Z.to_nat (sample_rate self * 5)) by apply linspace_length.
  unfold len in Hnoise. rewrite Nat2Z.id, Ht in Hnoise.
  rewrite broadcast2_same by (rewrite !length_map; congruence).
  eapply returns_bind; [eapply returns_lift with (P := eq _); done|].
  intros ir w4 _ <-.
  set (ir := zip_with fmul _ noise).
  assert (Hir : ir <> []).
  { intros E. apply (f_equal length) in E. unfold ir in E.
    rewrite length_zip_with, !length_map, Ht, Hnoise in E. cbn in E. lia. }
  rewrite broadcast2_same
    by (rewrite !length_map; symmetry; now apply length_truncated_convolution).
  eapply returns_bind; [eapply returns_lift with (P := eq _); done|].
  intros mixed w5 _ <-.
  apply returns_to_audio_segment.
  unfold len. rewrite length_zip_with, !length_map.
  rewrite length_truncated_convolution by done.
  rewrite length_to_numpy. lia.
Qed.

End ReverbLemmas.

(** ** pydub's segment operations *)
Section PydubLemmas.
Context `{External}.
Import Py Pydub Engine.

Lemma ms_of_frames_ok frames rate :
  rate <> 0 -> exists n, ms_of_frames frames rate = ok n.
Proof.
  intros Hr. unfold ms_of_frames.
  destruct (Z.eqb_spec rate 0) as [?|_]; [done|]. eauto.
Qed.

Lemma seg_len_ok a : frame_rate a <> 0 -> exists n, seg_len a = ok n.
Proof. apply ms_of_frames_ok. Qed.

Lemma parse_position_ok a val :
  frame_rate a <> 0 -> exists p, parse_position a val = ok p.
Proof.
  intros Hr. unfold parse_position.
  destruct (val <? 0); [|cbn; eauto].
  destruct (seg_len_ok a Hr) as [n ->]. cbn. eauto.
Qed.

Lemma parse_position_nonneg a val :
  0 <= val -> parse_position a val = ok (py_int (frames_of_ms (frame_rate a) val)).
Proof.
  intros Hv. unfold parse_position.
  destruct (Z.ltb_spec val 0) as [?|_]; [lia|]. done.
Qed.

(** A slice keeps the format of the segment; the only exception it can
    raise, on a segment with a rate, is [TooManyMissingFrames]. *)
Lemma getitem_slice_cases a start stop :
  frame_rate a <> 0 ->
  (exists a', getitem_slice a start stop = ok a' /\
              sample_width a' = sample_width a /\
              frame_rate a' = frame_rate a /\
              channels a' = channels a) \/
  fails_with "TooManyMissingFrames" (getitem_slice a start stop).
Proof.
  intros Hr. unfold getitem_slice.
  destruct (seg_len_ok a Hr) as [n ->]. cbn [rbind]. cbv zeta.
  destruct (parse_position_ok a (Z.min start n) Hr) as [fs ->].
  destruct (parse_position_ok a (Z.min stop n) Hr) as [fe ->]. cbn [rbind].
  destruct (_ =? 0); [left; eexists; done|].
  destruct (_ <? _)%float; [right; eexists; done|].
  left; eexists; done.
Qed.

(** A prefix slice whose end falls inside the data is exactly that many
    frames. *)
Lemma getitem_slice_prefix a n na fe :
  seg_len a = ok na -> 0 <= n <= na ->
  py_int (frames_of_ms (frame_rate a) 0) = 0 ->
  py_int (frames_of_ms (frame_rate a) n) = fe ->
  0 <= fe -> fe * nchannels (channels a) <= len (samples a) ->
  exists a', getitem_slice a 0 n = ok a' /\
             sample_width a' = sample_width a /\
             frame_rate a' = frame_rate a /\
             channels a' = channels a /\
             len (samples a') = fe * nchannels (channels a).
Proof.
  intros Hna Hn H0 Hfe Hpos Hin. unfold getitem_slice.
  rewrite Hna. cbn [rbind]. cbv zeta.
  rewrite (Z.min_l 0) by lia. rewrite (Z.min_l n) by lia.
  rewrite !parse_position_nonneg by lia. cbn [rbind].
  unfold frame_count_ms. rewrite H0, Hfe.
  pose proof (nchannels_pos (channels a)) as Hc.
  rewrite Z.mul_0_l.
  assert (Hd : len (slice (samples a) 0 (fe * nchannels (channels a)))
               = fe * nchannels (channels a)).
  { rewrite len_slice_prefix by nia. lia. }
  rewrite Hd.
  replace (fe * nchannels (channels a) - 0 - fe * nchannels (channels a)) with 0 by lia.
  rewrite Z.div_0_l by lia. cbn [Z.eqb].
  eexists. split; [reflexivity|]. done.
Qed.

Lemma len_set_channels_stereo a :
  channels a = Mono -> len (samples (set_channels Stereo a)) = 2 * len (samples a).
Proof.
  intros Hc. unfold set_channels. rewrite Hc. cbn [samples].
  unfold len. induction (samples a) as [|s l IH]; [done|].
  cbn [map concat length app] in *. lia.
Qed.

Lemma set_channels_same a : set_channels (channels a) a = a.
Proof. unfold set_channels. now destruct (channels a). Qed.

Lemma conform_same_rate c r w a :
  frame_rate a = r ->
  conform c r w a = ok (set_sample_width w (set_channels c a)).
Proof.
  intros Hr. unfold conform. rewrite set_frame_rate_same; [done|].
  unfold set_channels. destruct (channels a), c; done.
Qed.

Lemma width_max_idem w : width_max w w = w.
Proof. now destruct w. Qed.

Lemma layout_max_mono_l c : layout_max Mono c = c.
Proof. done. Qed.

(** [silent(d, seg.frame_rate) + seg]: the segment, widened to at least 16
    bits, after [d] milliseconds of zeros in its own layout. *)
Lemma append_silent_spec d a :
  exists right,
    append (silent d (frame_rate a)) a = ok right /\
    channels right = channels a /\
    frame_rate right = frame_rate a /\
    sample_width right = width_max W2 (sample_width a) /\
    len (samples right)
      = nchannels (channels a) * Z.max 0 (silent_frames d (frame_rate a))
        + len (samples a).
Proof.
  unfold append, sync. cbn [channels frame_rate sample_width silent layout_max].
  rewrite Z.max_id.
  rewrite !conform_same_rate by done. cbn [rbind fst snd].
  eexists. split; [reflexivity|].
  unfold with_samples. cbn [channels frame_rate sample_width samples set_sample_width].
  rewrite set_channels_same.
  assert (Hs : len (samples (set_channels (channels a)
                   (Segment (repeat_seq [0] (silent_frames d (frame_rate a)))
                            W2 (frame_rate a) Mono)))
               = nchannels (channels a) * Z.max 0 (silent_frames d (frame_rate a))).
  { destruct (channels a).
    - cbn [set_channels channels samples nchannels].
      rewrite len_repeat_seq. change (len [0]) with 1. lia.
    - rewrite len_set_channels_stereo by done. cbn [samples nchannels].
      rewrite len_repeat_seq. change (len [0]) with 1. lia. }
  repeat split.
  - now destruct (channels a).
  - now destruct (channels a).
  - rewrite len_app. unfold len, silent in *. rewrite !length_map. lia.
Qed.

End PydubLemmas.

(** ** The stereo widener *)
Section WidenLemmas.
Context `{External}.
Import Py Pydub Engine.

Lemma length_interleave l r :
  length l = length r -> length (interleave l r) = (2 * length l)%nat.
Proof.
  revert r. induction l as [|x l IH]; intros [|y r] E; cbn in *; try done.
  rewrite IH by lia. lia.
Qed.

(** The interleaving step and the final constructor never fail: the result
    is a stereo segment of [min_len] frames in the input's format. *)
Lemma widen_interleave_spec (w : width) (fr : Z) (l r : list Z) :
  let min_len := Z.min (len l) (len r) in
  exists seg,
    AudioSegment_init
      (Bytes.tobytes (width_nat w)
         (interleave (slice l 0 min_len) (slice r 0 min_len)))
      w fr Stereo = ok seg /\
    channels seg = Stereo /\ sample_width seg = w /\ frame_rate seg = fr /\
    len (samples seg) = 2 * min_len.
Proof.
  intros min_len.
  pose proof (len_nonneg l). pose proof (len_nonneg r).
  assert (Hl : len (slice l 0 min_len) = min_len)
    by (rewrite len_slice_prefix; lia).
  assert (Hr : len (slice r 0 min_len) = min_len)
    by (rewrite len_slice_prefix; lia).
  set (st := interleave _ _).
  assert (Hst : len st = 2 * min_len).
  { unfold st, len in *. rewrite length_interleave; lia. }
  pose proof (width_bytes_pos w) as Hw.
  assert (Hb : len (Bytes.tobytes (width_nat w) st)
               = width_bytes w * 2 * min_len).
  { unfold len in *. rewrite length_tobytes. unfold width_nat. lia. }
  unfold AudioSegment_init. rewrite Hb. cbn [nchannels].
  replace (width_bytes w * 2 * min_len) with (min_len * (width_bytes w * 2)) by lia.
  rewrite Z.mod_mul by lia. cbn [Z.eqb].
  eexists. split; [reflexivity|]. cbn [channels sample_width frame_rate samples].
  repeat split.
  unfold len in *. rewrite length_frombytes, length_tobytes.
  rewrite Nat.mul_comm, Nat.div_mul by (unfold width_nat; lia). lia.
Qed.

(** On any segment with a rate the widener either returns a stereo segment
    in the input's format, as long as the shorter of the input and the
    trimmed delayed copy, or fails inside pydub's slice. *)
Lemma stereo_widen_cases self audio delay_ms w :
  frame_rate audio <> 0 ->
  (exists seg w',
      stereo_widen self audio delay_ms w = (ok seg, w') /\
      files w' = files w /\
      channels seg = Stereo /\
      sample_width seg = sample_width audio /\
      frame_rate seg = frame_rate audio /\
      len (samples seg) <= 2 * len (samples audio)) \/
  fails_with "TooManyMissingFrames" (outcome (stereo_widen self audio delay_ms) w).
Proof.
  intros Hr. unfold outcome, stereo_widen, bind, logger_info, lift.
  destruct (append_silent_spec delay_ms audio)
    as (right & -> & Hc & Hfr & Hsw & Hlen).
  destruct (seg_len_ok audio Hr) as [n ->].
  destruct (getitem_slice_cases right 0 n) as [(right' & -> & _)|[msg ->]];
    [congruence| |right; eexists; reflexivity].
  destruct (widen_interleave_spec (sample_width audio) (frame_rate audio)
              (get_array_of_samples audio) (get_array_of_samples right'))
    as (seg & -> & Hsc & Hsw' & Hsfr & Hsl).
  left. eexists seg, _. split; [reflexivity|]. cbn [files].
  unfold get_array_of_samples in *. repeat split; try done. lia.
Qed.

(** For a mono segment whose length in milliseconds, and the frame that
    length is parsed back to, are known, the widener returns and the frame
    count of its result is known too. *)
Lemma stereo_widen_mono self audio delay_ms w n nr fe :
  channels audio = Mono ->
  let F := len (samples audio) in
  let D := Z.max 0 (silent_frames delay_ms (frame_rate audio)) in
  ms_of_frames F (frame_rate audio) = ok n ->
  ms_of_frames (D + F) (frame_rate audio) = ok nr ->
  0 <= n <= nr ->
  py_int (frames_of_ms (frame_rate audio) 0) = 0 ->
  py_int (frames_of_ms (frame_rate audio) n) = fe ->
  0 <= fe <= D + F ->
  returns (stereo_widen self audio delay_ms) w
    (fun seg => channels seg = Stereo /\
                sample_width seg = sample_width audio /\
                frame_rate seg = frame_rate audio /\
                len (samples seg) = 2 * Z.min F fe).
Proof.
  intros Hmono F D Hn Hnr Hle H0 Hfe Hin.
  unfold returns, stereo_widen, bind, logger_info, lift.
  destruct (append_silent_spec delay_ms audio)
    as (right & -> & Hc & Hfr & Hsw & Hlen).
  rewrite Hmono in *. cbn [nchannels] in Hlen. rewrite Z.mul_1_l in Hlen.
  fold D F in Hlen.
  assert (Hfc : frame_count audio = F).
  { unfold frame_count. rewrite Hmono. cbn [nchannels]. now rewrite Z.div_1_r. }
  unfold seg_len at 1. rewrite Hfc, Hn.
  assert (Hsl : seg_len right = ok nr).
  { unfold seg_len, frame_count. rewrite Hc, Hfr, Hlen. cbn [nchannels].
    now rewrite Z.div_1_r. }
  assert (Hfit : fe * nchannels (channels right) <= len (samples right)).
  { rewrite Hc, Hlen. cbn [nchannels]. lia. }
  rewrite <- Hfr in H0, Hfe.
  destruct (getitem_slice_prefix right n nr fe Hsl Hle H0 Hfe (proj1 Hin) Hfit)
    as (right' & -> & _ & _ & _ & Hl').
  rewrite Hc in Hl'. cbn [nchannels] in Hl'. rewrite Z.mul_1_r in Hl'.
  destruct (widen_interleave_spec (sample_width audio) (frame_rate audio)
              (get_array_of_samples audio) (get_array_of_samples right'))
    as (seg & -> & Hsc & Hsw' & Hsfr & Hseg).
  eexists seg, _. split; [reflexivity|]. cbn [files].
  unfold get_array_of_samples in *. rewrite Hl' in Hseg. done.
Qed.

End WidenLemmas.

(** ** Exceptions *)

Lemma not_fails_with_ok {A} cls (a : A) : ~ fails_with cls (ok a).
Proof. intros [msg E]. discriminate. Qed.

Lemma fails_with_class {A} cls cls' (r : result A) :
  fails_with cls r -> cls <> cls' -> ~ fails_with cls' r.
Proof. intros [m ->] Hne [m' E]. congruence. Qed.

(** ** The de-esser's band *)

Lemma band_rejected_table :
  forallb band_rejected (map Z.of_nat (seq 1 (Z.to_nat 16000))) = true.
Proof. vm_compute. reflexivity. Qed.

(** Every rate from 1 to 16000 Hz puts 8000 Hz at or above Nyquist and is
    rejected. *)
Lemma band_rejected_upto_16000 sr : 0 < sr <= 16000 -> band_rejected sr = true.
Proof.
  intros Hsr. pose proof band_rejected_table as Ht.
  rewrite forallb_forall in Ht. apply Ht.
  apply in_map_iff. exists (Z.to_nat sr). split; [lia|].
  apply in_seq. lia.
Qed.

Section DeesserLemmas.
Context `{External}.
Import Py Pydub Engine.

Lemma apply_deesser_rejected self audio threshold w :
  band_rejected (sample_rate self) = true ->
  outcome (apply_deesser self audio threshold) w
    = raise (ValueError "Digital filter critical frequencies must be 0 < Wn < 1").
Proof.
  unfold band_rejected, outcome, apply_deesser, bind, logger_info, lift, butter.
  cbv zeta. intros Hb. apply andb_prop in Hb as [Hn Hc].
  apply negb_true_iff in Hn. rewrite Hn, Hc. reflexivity.
Qed.

(** The exceptions the de-esser can raise are Python's own. *)
Lemma apply_deesser_raises self audio threshold :
  raises_only ["ZeroDivisionError"; "ValueError"]
              (apply_deesser self audio threshold).
Proof.
  intros w e w'.
  unfold apply_deesser, bind, logger_info, lift, throw, butter, filtfilt.
  destruct (_ =? _)%float; [intros [= <- _]; cbn; auto|].
  destruct (_ || _); [intros [= <- _]; cbn; auto|].
  destruct (_ <=? _); [intros [= <- _]; cbn; auto|].
  destruct (broadcast2 fsub _ _) as [e1|d1] eqn:E1.
  { intros [= <- _]. unfold broadcast2 in E1.
    destruct (_ =? _)%nat; [done|].
    repeat (match type of E1 with context [match ?l with _ => _ end] =>
              destruct l end; try done);
      injection E1 as <-; cbn; auto. }
  destruct (broadcast2 fsub _ d1) as [e2|d2] eqn:E2.
  { intros [= <- _]. unfold broadcast2 in E2.
    destruct (_ =? _)%nat; [done|].
    repeat (match type of E2 with context [match ?l with _ => _ end] =>
              destruct l end; try done);
      injection E2 as <-; cbn; auto. }
  destruct (to_audio_segment_spec self d2 audio) as (seg & -> & _).
  intros [=].
Qed.

End DeesserLemmas.

(** ** Assembling the Program *)
Section ChainLemmas.
Context `{External}.
Import Py Pydub Engine.

Lemma returns_from_wav path a w :
  files w !! path = Some (WavFile a) -> returns (from_wav path) w (eq a).
Proof. intros E. exists a, w. unfold from_wav. now rewrite E. Qed.

Lemma encoded_len self orig n seg :
  encoded self orig n seg ->
  len (samples seg) = 4 / width_bytes (sample_width orig) * n.
Proof.
  intros (_ & _ & _ & E).
  destruct (sample_width orig); cbn [width_bytes] in *.
  - change (4 / 1) with 4. lia.
  - change (4 / 2) with 2. lia.
  - change (4 / 4) with 1. lia.
Qed.

Lemma default_nyquist_nonzero :
  (float_of_Z (sample_rate DSPEngine_default) / 2 =? 0)%float = false.
Proof. vm_compute. reflexivity. Qed.

Lemma default_band_accepted :
  let nyquist := (float_of_Z (sample_rate DSPEngine_default) / 2)%float in
  butter 4 (4000 / nyquist) (8000 / nyquist)
    = ok (butter_ba 4 (4000 / nyquist) (8000 / nyquist))%float.
Proof.
  intros nyquist. unfold butter.
  set (c := (_ || _)). assert (Hc : c = false) by (vm_compute; reflexivity).
  now rewrite Hc.
Qed.

(** On a clip of at most 27 samples the de-esser of the default engine
    fails in [filtfilt]. *)
Lemma apply_deesser_too_short audio threshold w :
  len (samples audio) <= 27 ->
  exists w',
    apply_deesser DSPEngine_default audio threshold w
      = (raise (ValueError
           "The length of the input vector x must be greater than padlen, which is 27."),
         w') /\
    files w' = files w.
Proof.
  intros Hlen. unfold apply_deesser, bind, logger_info, lift.
  rewrite default_nyquist_nonzero, default_band_accepted.
  set (nyquist := (float_of_Z (sample_rate DSPEngine_default) / 2)%float).
  destruct (butter_ba_length 4 (4000 / nyquist) (8000 / nyquist))%float
    as [Hlb Hla]; [lia|].
  unfold filtfilt. rewrite Hlb, Hla, len_to_numpy.
  destruct (Z.leb_spec (len (samples audio)) (3 * Z.max (2 * 4 + 1) (2 * 4 + 1)))
    as [_|?]; [|lia].
  eexists. split; reflexivity.
Qed.

Lemma length_set_sample_width w a :
  length (samples (set_sample_width w a)) = length (samples a).
Proof. unfold set_sample_width. cbn [samples]. now rewrite length_map. Qed.

Lemma lin2lin_same w s : lin2lin w w s = s.
Proof.
  unfold lin2lin. rewrite Z.leb_refl, Z.sub_diag. cbn. lia.
Qed.

Lemma set_channels_stereo_id a :
  channels a = Stereo -> set_channels Stereo a = a.
Proof. intros <-. apply set_channels_same. Qed.

Lemma width_max_W1_l w : width_max W1 w = w.
Proof. now destruct w. Qed.

(** [vocal + AudioSegment.silent(duration=2000)] for a stereo clip at
    48 kHz. *)
Lemma append_gap_spec vocal :
  channels vocal = Stereo -> frame_rate vocal = 48000 ->
  let w := width_max (sample_width vocal) W2 in
  exists padded,
    append vocal (silent 2000 11025) = ok padded /\
    channels padded = Stereo /\ frame_rate padded = 48000 /\
    sample_width padded = w /\
    len (samples padded) = len (samples vocal) + len (gap_samples w).
Proof.
  intros Hc Hr w. unfold append, sync.
  cbn [channels frame_rate sample_width silent]. rewrite Hc, Hr.
  cbn [layout_max]. change (Z.max 48000 11025) with 48000. fold w.
  rewrite (conform_same_rate Stereo 48000 w vocal Hr). cbn [rbind].
  unfold conform, set_frame_rate.
  change (frame_rate (set_channels Stereo _)) with 11025.
  change (48000 =? 11025) with false. cbv iota.
  destruct (samples (set_channels Stereo
              (Segment (repeat_seq [0] (silent_frames 2000 11025)) W2 11025 Mono)))
    as [|s l] eqn:E.
  { exfalso. apply (f_equal len) in E.
    rewrite len_set_channels_stereo in E by done. cbn [samples] in E.
    rewrite len_repeat_seq in E.
    replace (silent_frames 2000 11025) with 22050 in E by (vm_compute; reflexivity).
    discriminate. }
  change ((11025 <=? 0) || (48000 <=? 0)) with false. cbv iota. cbn [rbind fst snd].
  eexists. split; [reflexivity|].
  unfold with_samples, gap_samples.
  cbn [fst snd channels frame_rate sample_width samples set_sample_width
       set_channels silent].
  rewrite (set_channels_stereo_id vocal Hc). repeat split; try done.
  rewrite len_app. f_equal.
  unfold len. now rewrite length_map.
Qed.

(** [combined += padded] while the Program is assembled. *)
Lemma append_assembling w combined padded :
  assembling w combined ->
  channels padded = Stereo -> frame_rate padded = 48000 ->
  sample_width padded = w ->
  exists p,
    append combined padded = ok p /\
    assembling w p /\ channels p = Stereo /\
    len (samples p) = len (samples combined) + len (samples padded).
Proof.
  intros [->|(Hc & Hr & Hw)] Hpc Hpr Hpw; unfold append, sync.
  - cbn [channels frame_rate sample_width empty]. rewrite Hpc, Hpr, Hpw.
    cbn [layout_max]. change (Z.max 1 48000) with 48000.
    rewrite width_max_W1_l.
    rewrite (conform_same_rate Stereo 48000 w padded Hpr).
    rewrite (set_channels_stereo_id padded Hpc).
    unfold conform. cbn. eexists. split; [reflexivity|].
    unfold assembling, with_samples, set_sample_width.
    cbn [channels frame_rate sample_width samples].
    split; [right; repeat split; auto|]. split; [auto|].
    unfold len. cbn. now rewrite length_map.
  - rewrite Hc, Hr, Hw, Hpc, Hpr, Hpw. cbn [layout_max].
    rewrite Z.max_id, width_max_idem.
    rewrite (conform_same_rate Stereo 48000 w combined Hr).
    rewrite (conform_same_rate Stereo 48000 w padded Hpr). cbn [rbind fst snd].
    rewrite (set_channels_stereo_id combined Hc), (set_channels_stereo_id padded Hpc).
    eexists. split; [reflexivity|].
    unfold assembling, with_samples.
    cbn [channels frame_rate sample_width samples set_sample_width].
    split; [right; repeat split; auto|]. split; [auto|].
    rewrite len_app. unfold len. now rewrite !length_map.
Qed.

(** The widener of the default engine on the mono clips the reverb hands
    it. *)
Lemma stereo_widen_default audio w N :
  channels audio = Mono -> frame_rate audio = 48000 ->
  widened_frames (len (samples audio)) = Some N ->
  returns (stereo_widen DSPEngine_default audio 15) w
    (fun seg => channels seg = Stereo /\
                sample_width seg = sample_width audio /\
                frame_rate seg = 48000 /\
                len (samples seg) = 2 * N).
Proof.
  intros Hc Hr Hw. unfold widened_frames in Hw.
  destruct (ms_of_frames (len (samples audio)) 48000) as [|n] eqn:En; [done|].
  destruct (ms_of_frames (_ + len (samples audio)) 48000) as [|nr] eqn:Enr;
    [done|].
  cbv zeta in Hw.
  destruct (_ && _) eqn:Eb in Hw; [|done].
  injection Hw as <-.
  repeat (apply andb_prop in Eb as [Eb ?]).
  eapply returns_weaken.
  - eapply (stereo_widen_mono DSPEngine_default audio 15 w n nr); rewrite ?Hr;
      try done; try lia.
  - cbv beta. rewrite Hr. intros seg (? & ? & ? & ?). done.
Qed.

(** One turn of the loop of [process_chain] on a clip the four stages
    accept: the Program grows by the widened clip and one pause. *)
Lemma chain_clip_returns combined path a w N :
  files w !! path = Some (WavFile a) ->
  clip_frames (sample_width a) (len (samples a)) = Some N ->
  assembling (width_max (sample_width a) W2) combined ->
  returns (chain_clip DSPEngine_default combined path) w
    (fun c => assembling (width_max (sample_width a) W2) c /\
              channels c = Stereo /\
              len (samples c)
                = len (samples combined) + 2 * N
                  + len (gap_samples (width_max (sample_width a) W2))).
Proof.
  intros Hfile Hclip Hasm. unfold clip_frames in Hclip.
  destruct (num_samples DSPEngine_default (len (samples a))) as [|n] eqn:En;
    [done|].
  destruct (_ && _) eqn:Eb in Hclip; [|done].
  apply andb_prop in Eb as [Eb H27]. apply andb_prop in Eb as [HF Hn].
  set (k := 4 / width_bytes (sample_width a)) in *.
  unfold chain_clip.
  eapply returns_bind; [exact (returns_from_wav path a w Hfile)|]. intros ? w1 _ <-.
  eapply returns_bind.
  { apply (pitch_shift_returns DSPEngine_default a w1 n En); [lia|].
    intros E. rewrite E in HF. done. }
  intros s1 w2 _ Hs1. pose proof (encoded_len _ _ _ _ Hs1) as Hl1. fold k in Hl1.
  destruct Hs1 as (Hw1 & _ & _ & _).
  eapply returns_bind.
  { apply (apply_deesser_returns DSPEngine_default s1 0.1 w2).
    - apply default_nyquist_nonzero.
    - apply default_band_accepted.
    - lia. }
  intros s2 w3 _ Hs2. pose proof (encoded_len _ _ _ _ Hs2) as Hl2.
  rewrite Hw1 in Hl2. fold k in Hl2.
  destruct Hs2 as (Hw2 & _ & _ & _).
  eapply returns_bind; [now apply (add_reverb_returns DSPEngine_default s2 0.4 w3)|].
  intros s3 w4 _ Hs3. pose proof (encoded_len _ _ _ _ Hs3) as Hl3.
  rewrite Hw2, Hw1 in Hl3. fold k in Hl3.
  destruct Hs3 as (Hw3 & Hr3 & Hc3 & _).
  eapply returns_bind.
  { apply (stereo_widen_default s3 w4 N Hc3 Hr3).
    rewrite Hl3, Hl2, Hl1. exact Hclip. }
  intros s4 w5 _ (Hc4 & Hw4 & Hr4 & Hl4).
  destruct (append_gap_spec s4 Hc4 Hr4) as (padded & Hap & Hpc & Hpr & Hpw & Hpl).
  rewrite Hw4, Hw3, Hw2, Hw1 in Hpw, Hpl.
  eapply returns_bind; [eapply returns_lift with (P := eq padded); done|].
  intros ? w6 _ <-.
  destruct (append_assembling _ combined padded Hasm Hpc Hpr Hpw)
    as (p & Hp & Hpa & Hpch & Hplen).
  eapply returns_lift; [exact Hp|].
  split; [done|]. split; [done|]. lia.
Qed.

(** The limiter never raises and keeps the format and the length. *)
Lemma master_limiter_returns self audio target_lufs w :
  returns (master_limiter self audio target_lufs) w
    (fun seg => channels seg = channels audio /\
                frame_rate seg = frame_rate audio /\
                len (samples seg) = len (samples audio)).
Proof.
  unfold master_limiter.
  eapply returns_bind; [apply returns_info|]. intros _ w1 _ _.
  apply returns_ret. unfold normalize.
  destruct (_ =? 0); [done|].
  unfold apply_gain, with_samples. cbn [channels frame_rate samples].
  repeat split. unfold len. now rewrite audioop_mul_length.
Qed.

(** Three clips of one sample width, each accepted by the four stages:
    the Program is their widened copies, each followed by one pause. *)
Lemma process_chain_three_clips wd p1 p2 p3 a1 a2 a3 w N1 N2 N3 :
  width_max wd W2 = wd ->
  files w !! p1 = Some (WavFile a1) ->
  files w !! p2 = Some (WavFile a2) ->
  files w !! p3 = Some (WavFile a3) ->
  sample_width a1 = wd -> sample_width a2 = wd -> sample_width a3 = wd ->
  clip_frames wd (len (samples a1)) = Some N1 ->
  clip_frames wd (len (samples a2)) = Some N2 ->
  clip_frames wd (len (samples a3)) = Some N3 ->
  returns (process_chain DSPEngine_default [p1; p2; p3]) w
    (fun program =>
       channels program = Stereo /\
       frame_rate program = 48000 /\
       len (samples program)
         = 2 * (N1 + N2 + N3) + 3 * len (gap_samples wd)).
Proof.
  intros Hwd Hf1 Hf2 Hf3 Hw1 Hw2 Hw3 Hc1 Hc2 Hc3.
  unfold process_chain. cbn [chain_loop].
  eapply returns_bind.
  { eapply returns_bind.
    { apply (chain_clip_returns empty p1 a1 w N1 Hf1).
      - now rewrite Hw1.
      - now left. }
    intros c1 w1 Hk1 (Ha1 & _ & Hl1). rewrite Hw1, Hwd in Ha1, Hl1.
    eapply returns_bind.
    { apply (chain_clip_returns c1 p2 a2 w1 N2).
      - now rewrite Hk1.
      - now rewrite Hw2.
      - now rewrite Hw2, Hwd. }
    intros c2 w2 Hk2 (Ha2 & _ & Hl2). rewrite Hw2, Hwd in Ha2, Hl2.
    eapply returns_bind.
    { apply (chain_clip_returns c2 p3 a3 w2 N3).
      - now rewrite Hk2, Hk1.
      - now rewrite Hw3.
      - now rewrite Hw3, Hwd. }
    intros c3 w3 Hk3 (Ha3 & Hch3 & Hl3). rewrite Hw3, Hwd in Ha3, Hl3.
    apply returns_ret.
    instantiate (1 := fun c =>
      channels c = Stereo /\ frame_rate c = 48000 /\
      len (samples c) = 2 * (N1 + N2 + N3) + 3 * len (gap_samples wd)).
    cbv beta.
    destruct Ha3 as [->|(_ & Hr3 & _)].
    - exfalso. cbn in Hch3. discriminate.
    - split; [done|]. split; [done|].
      rewrite Hl3, Hl2, Hl1. change (len (samples empty)) with 0. lia. }
  intros c w4 _ (Hch & Hr & Hl).
  eapply returns_weaken; [apply master_limiter_returns|].
  intros program (Hpc & Hpr & Hpl).
  rewrite Hpc, Hpr, Hpl, Hch, Hr, Hl. done.
Qed.

(** The same three clips as 32-bit PCM keep their pitch-shifted lengths:
    1413809 frames of processed clips (29.45 s) plus three pauses. *)
Lemma program_of_32bit_clips p1 p2 p3 a1 a2 a3 w :
  files w !! p1 = Some (WavFile a1) ->
  files w !! p2 = Some (WavFile a2) ->
  files w !! p3 = Some (WavFile a3) ->
  sample_width a1 = W4 -> sample_width a2 = W4 -> sample_width a3 = W4 ->
  len (samples a1) = 10 * 48000 ->
  len (samples a2) = 8 * 48000 ->
  len (samples a3) = 12 * 48000 ->
  returns (process_chain DSPEngine_default [p1; p2; p3]) w
    (fun program =>
       channels program = Stereo /\
       frame_rate program = 48000 /\
       len (samples program) = 2 * 1413809 + 3 * len (gap_samples W4)).
Proof.
  intros Hf1 Hf2 Hf3 Hw1 Hw2 Hw3 Hl1 Hl2 Hl3.
  eapply returns_weaken.
  - apply (process_chain_three_clips W4 p1 p2 p3 a1 a2 a3 w
             471264 377018 565527); try done.
    + rewrite Hl1. vm_compute. reflexivity.
    + rewrite Hl2. vm_compute. reflexivity.
    + rewrite Hl3. vm_compute. reflexivity.
  - intros program (Hc & Hr & Hl). split; [done|]. split; [done|].
    rewrite Hl. lia.
Qed.

End ChainLemmas.

Lemma len_zeros w c n : 0 <= n -> Py.len (samples (zeros w c n)) = n.
Proof.
  intros Hn. unfold zeros. cbn [samples]. rewrite len_repeat_seq.
  change (Py.len [0]) with 1. lia.
Qed.

(** ** Failed runs *)
Section KeepsFiles.
Context {A B : Type}.

Lemma keeps_files_bind (c : M A) (k : A -> M B) :
  keeps_files c -> (forall a, keeps_files (k a)) -> keeps_files (bind c k).
Proof.
  intros Hc Hk w. unfold bind. specialize (Hc w).
  destruct (c w) as [[e|a] w']; cbn [snd] in *; [done|].
  now rewrite Hk.
Qed.

Lemma keeps_files_lift (r : result A) : keeps_files (lift r).
Proof. done. Qed.

Lemma keeps_files_ret (a : A) : keeps_files (ret a).
Proof. done. Qed.

Lemma keeps_files_throw (e : exn) : keeps_files (@throw A e).
Proof. done. Qed.

End KeepsFiles.

Lemma keeps_files_info msg : keeps_files (logger_info msg).
Proof. done. Qed.

Lemma keeps_files_from_wav path : keeps_files (from_wav path).
Proof.
  intros w. unfold from_wav. destruct (files w !! path) as [[]|]; done.
Qed.

Ltac keeps_files_step :=
  first
    [ apply keeps_files_info
    | apply keeps_files_from_wav
    | apply keeps_files_lift
    | apply keeps_files_ret
    | apply keeps_files_throw
    | apply keeps_files_bind; [|intros ?]
    | match goal with
      | |- keeps_files (if ?c then _ else _) => destruct c
      end ].

Section FailedRuns.
Context `{External}.
Import Py Pydub Engine.

Lemma keeps_files_random loc sc size : keeps_files (np_random_normal loc sc size).
Proof. done. Qed.

Lemma keeps_files_chain_clip self combined path :
  keeps_files (chain_clip self combined path).
Proof.
  unfold chain_clip, pitch_shift_432hz, apply_deesser, add_reverb,
    stereo_widen, master_limiter.
  cbv zeta.
  repeat first [apply keeps_files_random | keeps_files_step].
Qed.

Lemma keeps_files_chain_loop self paths :
  forall combined, keeps_files (chain_loop self combined paths).
Proof.
  induction paths as [|p paths IH]; intros combined; cbn [chain_loop].
  - apply keeps_files_ret.
  - apply keeps_files_bind; [apply keeps_files_chain_clip|]. intros c. apply IH.
Qed.

Lemma keeps_files_process_chain self paths :
  keeps_files (process_chain self paths).
Proof.
  unfold process_chain, master_limiter.
  apply keeps_files_bind; [apply keeps_files_chain_loop|]. intros c.
  repeat keeps_files_step.
Qed.

(** The loop raises exactly the exception of its first failing clip. *)
Lemma chain_loop_first_failure self paths :
  forall combined i w j e,
    first_failure self combined paths i w = Some (j, e) ->
    exists w', chain_loop self combined paths w = (raise e, w').
Proof.
  induction paths as [|p paths IH]; intros combined i w j e; cbn; [done|].
  unfold bind. destruct (chain_clip self combined p w) as [[e'|c] w1].
  - intros [= _ <-]. eauto.
  - apply IH.
Qed.

(** A run in which a clip fails: the exception reaches the caller as it
    was raised, one error record is logged, the files are as before. *)
Lemma run_pipeline_dsp_failure paths w i e :
  failing_clip paths w = Some (i, e) ->
  exists w',
    run_pipeline_dsp paths w
      = (raise e,
         mkWorld (log w' ++ [Error [Txt "❌ Pipeline failed: "; Txt (exn_msg e)]])
                 (files w') (rng w')) /\
    files w' = files w.
Proof.
  intros Hf. unfold failing_clip in Hf.
  apply chain_loop_first_failure in Hf as [w' Hl].
  pose proof (keeps_files_chain_loop DSPEngine_default paths empty
                (snd (logger_info [Txt "--- Stage 3: DSP Processing ---"] w))) as Hk.
  rewrite Hl in Hk. cbn [snd logger_info files] in Hk.
  unfold logger_info in Hl. cbn [snd] in Hl.
  unfold run_pipeline_dsp, try_except, process_chain.
  unfold bind at 1. unfold logger_info at 1. cbv beta iota.
  unfold bind at 1. unfold bind at 1. rewrite Hl.
  exists w'. split; [reflexivity|exact Hk].
Qed.

(** A clip whose pitch-shifted copy has at most 27 samples stops the loop
    in the de-esser. *)
Lemma chain_clip_too_short combined path a w n :
  files w !! path = Some (WavFile a) ->
  num_samples DSPEngine_default (len (samples a)) = ok n ->
  0 < n -> samples a <> [] ->
  4 / width_bytes (sample_width a) * n <= 27 ->
  exists w',
    chain_clip DSPEngine_default combined path w
      = (raise too_short_for_filter, w').
Proof.
  intros Hfile Hn Hpos Hne Hshort. unfold chain_clip.
  rewrite (bind_ok _ _ w a w) by (unfold from_wav; now rewrite Hfile).
  destruct (pitch_shift_returns DSPEngine_default a w n Hn Hpos Hne)
    as (s1 & w2 & Hp & _ & Hs1).
  rewrite (bind_ok _ _ w s1 w2 Hp).
  pose proof (encoded_len _ _ _ _ Hs1) as Hl1.
  destruct (apply_deesser_too_short s1 0.1 w2) as (w3 & Hd & _); [lia|].
  rewrite (bind_raise _ _ w2 _ w3 Hd). eauto.
Qed.

End FailedRuns.

(** ** Signs of float computations *)
Section FloatSigns.
Import Py.

Lemma binary_round_aux_sign prec emax sx mx ex lx :
  match binary_round_aux prec emax sx mx ex lx with
  | S754_finite s _ _ => s = sx
  | _ => True
  end.
Proof.
  unfold binary_round_aux.
  destruct (shr_fexp prec emax mx ex lx) as [mrs' e'].
  destruct (shr_fexp prec emax _ e' loc_Exact) as [mrs'' e''].
  destruct (shr_m mrs''); [done| |done].
  destruct (Z.leb _ _); done.
Qed.

Lemma not_negative_mul x y :
  not_negative x -> not_negative y -> not_negative (x * y).
Proof.
  unfold not_negative. rewrite FloatAxioms.mul_spec. unfold SF64mul, SFmul.
  destruct (Prim2SF x) as [sx|sx| |sx mx ex], (Prim2SF y) as [sy|sy| |sy my ey];
    try done.
  intros -> ->. apply (binary_round_aux_sign prec emax false).
Qed.

Lemma not_negative_div x y :
  not_negative x -> not_negative y -> not_negative (x / y).
Proof.
  unfold not_negative. rewrite FloatAxioms.div_spec. unfold SF64div, SFdiv.
  destruct (Prim2SF x) as [sx|sx| |sx mx ex], (Prim2SF y) as [sy|sy| |sy my ey];
    try done.
  intros -> ->.
  destruct (SFdiv_core_binary prec emax (Z.pos mx) ex (Z.pos my) ey)
    as [[mz ez] lz].
  apply (binary_round_aux_sign prec emax false).
Qed.

Lemma not_negative_float_of_Z z : 0 <= z -> not_negative (float_of_Z z).
Proof.
  intros Hz. unfold not_negative, float_of_Z.
  destruct (Z.ltb_spec z 0) as [?|_]; [lia|].
  rewrite FloatAxioms.of_uint63_spec. unfold binary_normalize.
  pose proof (Uint63.to_Z_bounded (Uint63.of_Z z)) as Hb.
  destruct (Uint63.to_Z (Uint63.of_Z z)) as [|p|p]; [done| |lia].
  unfold binary_round. destruct (shl_align _ _ _) as [mz ez].
  apply (binary_round_aux_sign prec emax false).
Qed.

Lemma floor_mag_nonneg m e : 0 <= floor_mag m e.
Proof.
  unfold floor_mag. destruct e as [|p|p]; [lia| |].
  - assert (0 < 2 ^ Z.pos p) by (apply Z.pow_pos_nonneg; lia). lia.
  - apply Z.div_pos; [lia|]. apply Z.pow_pos_nonneg; lia.
Qed.

Lemma round_mag_nonneg m e : 0 <= round_mag m e.
Proof.
  unfold round_mag. destruct e as [|p|p]; try apply floor_mag_nonneg.
  cbv zeta.
  assert (0 <= Z.pos m / 2 ^ Z.pos p)
    by (apply Z.div_pos; [lia|]; apply Z.pow_pos_nonneg; lia).
  repeat destruct (_ <? _); try destruct (Z.even _); lia.
Qed.

Lemma py_int_nonneg x : not_negative x -> 0 <= py_int x.
Proof.
  unfold not_negative, py_int. destruct (Prim2SF x) as [| | |s m e]; try lia.
  intros ->. apply floor_mag_nonneg.
Qed.

Lemma py_round_nonneg x : not_negative x -> 0 <= py_round x.
Proof.
  unfold not_negative, py_round. destruct (Prim2SF x) as [| | |s m e]; try lia.
  intros ->. apply round_mag_nonneg.
Qed.

Lemma not_negative_1000 : not_negative 1000.
Proof. reflexivity. Qed.

(** Zero times anything truncates to zero. *)
Lemma py_int_zero_mul y : py_int (float_of_Z 0 * y) = 0.
Proof.
  unfold py_int. rewrite FloatAxioms.mul_spec.
  change (Prim2SF (float_of_Z 0)) with (S754_zero false).
  unfold SF64mul, SFmul. destruct (Prim2SF y); reflexivity.
Qed.

End FloatSigns.

(** ** Samples as bytes and back *)
Section ByteRoundTrip.
Import Py Bytes.

Lemma byte_of_Z_value z : Z.of_N (Byte.to_N (byte_of_Z z)) = z mod 256.
Proof.
  unfold byte_of_Z.
  pose proof (Z.mod_pos_bound z 256 ltac:(lia)) as Hb.
  destruct (Byte.of_N (Z.to_N (z mod 256))) as [b|] eqn:E.
  - apply Byte.to_of_N in E. rewrite E. lia.
  - apply Byte.of_N_None_iff in E. lia.
Qed.

Lemma le_unsigned_le_bytes n z :
  le_unsigned (le_bytes n z) = z mod 256 ^ Z.of_nat n.
Proof.
  revert z. induction n as [|n IH]; intros z.
  - cbn. now rewrite Z.mod_1_r.
  - cbn [le_bytes le_unsigned]. rewrite byte_of_Z_value, IH.
    rewrite Nat2Z.inj_succ, Z.pow_succ_r by lia.
    rewrite Z.rem_mul_r by lia. reflexivity.
Qed.

Lemma le_signed_le_bytes n z :
  - 256 ^ Z.of_nat n <= 2 * z < 256 ^ Z.of_nat n ->
  le_signed (le_bytes n z) = z.
Proof.
  intros Hz. unfold le_signed. rewrite le_unsigned_le_bytes, length_le_bytes.
  set (m := 256 ^ Z.of_nat n) in *.
  assert (0 < m) by (apply Z.pow_pos_nonneg; lia).
  destruct (Z.lt_ge_cases z 0) as [Hneg|Hpos].
  - replace (z mod m) with (z + m).
    + destruct (Z.ltb_spec (2 * (z + m)) m); lia.
    + apply Z.mod_unique with (q := -1); lia.
  - rewrite Z.mod_small by lia.
    destruct (Z.ltb_spec (2 * z) m); lia.
Qed.

Lemma chunks_aux_concat w xs :
  chunks_aux (length xs) w (concat (map (le_bytes w) xs)) = map (le_bytes w) xs.
Proof.
  induction xs as [|x xs IH]; [done|].
  cbn [length chunks_aux map concat].
  rewrite take_app_length' by (symmetry; apply length_le_bytes).
  rewrite drop_app_length' by (symmetry; apply length_le_bytes).
  now rewrite IH.
Qed.

Lemma chunks_tobytes w xs :
  (0 < w)%nat -> chunks w (tobytes w xs) = map (le_bytes w) xs.
Proof.
  intros Hw. unfold chunks. rewrite length_tobytes.
  rewrite Nat.mul_comm, Nat.div_mul by lia.
  apply chunks_aux_concat.
Qed.

Lemma fits_le_bytes wd s :
  fits wd s ->
  - 256 ^ Z.of_nat (width_nat wd) <= 2 * s < 256 ^ Z.of_nat (width_nat wd).
Proof.
  unfold fits. destruct wd.
  - change (2 ^ (8 * width_bytes W1 - 1)) with 128.
    change (256 ^ Z.of_nat (width_nat W1)) with 256. lia.
  - change (2 ^ (8 * width_bytes W2 - 1)) with 32768.
    change (256 ^ Z.of_nat (width_nat W2)) with 65536. lia.
  - change (2 ^ (8 * width_bytes W4 - 1)) with 2147483648.
    change (256 ^ Z.of_nat (width_nat W4)) with 4294967296. lia.
Qed.

(** Samples that fit the width are read back as they were written. *)
Lemma frombytes_tobytes wd xs :
  Forall (fits wd) xs ->
  frombytes (width_nat wd) (tobytes (width_nat wd) xs) = xs.
Proof.
  intros Hx. unfold frombytes.
  rewrite chunks_tobytes
    by (pose proof (width_bytes_pos wd); unfold width_nat; lia).
  induction Hx as [|x xs Hf _ IH]; [done|].
  cbn [map]. rewrite IH. f_equal.
  apply le_signed_le_bytes. now apply fits_le_bytes.
Qed.

End ByteRoundTrip.

(** ** The widener, sample by sample *)
Section WidenValues.
Context `{External}.
Import Py Pydub Engine.

Lemma slice_prefix_take {A} (l : list A) n :
  0 <= n -> slice l 0 n = take (Z.to_nat n) l.
Proof.
  intros Hn. unfold slice, clamp_index. pose proof (len_nonneg l).
  destruct (Z.ltb_spec 0 0) as [?|_]; [lia|].
  destruct (Z.ltb_spec n 0) as [?|_]; [lia|].
  rewrite (Z.min_l 0) by lia. change (Z.to_nat 0) with 0%nat. rewrite drop_0.
  rewrite Z.sub_0_r. destruct (Z.le_ge_cases n (len l)).
  - now rewrite Z.min_l by lia.
  - rewrite Z.min_r by lia. unfold len in *. rewrite Nat2Z.id.
    rewrite !take_ge; [reflexivity|lia|lia].
Qed.

Lemma concat_replicate_singleton {A} (x : A) n :
  concat (replicate n [x]) = replicate n x.
Proof. induction n as [|n IH]; [done|]. cbn. now rewrite IH. Qed.

Lemma concat_replicate_pair {A} (x : A) n :
  concat (map (fun s => [s; s]) (replicate n x)) = replicate (2 * n) x.
Proof.
  induction n as [|n IH]; [done|].
  replace (2 * S n)%nat with (S (S (2 * n))) by lia.
  cbn [replicate map concat]. rewrite IH. reflexivity.
Qed.

Lemma lin2lin_zero from to : lin2lin from to 0 = 0.
Proof. unfold lin2lin. destruct (_ <=? _); [lia|apply Zdiv_0_l]. Qed.

Lemma map_lin2lin_zeros from to n :
  map (lin2lin from to) (replicate n 0) = replicate n 0.
Proof.
  induction n as [|n IH]; [done|].
  cbn [replicate map]. now rewrite lin2lin_zero, IH.
Qed.

Lemma map_lin2lin_same w l : map (lin2lin w w) l = l.
Proof.
  induction l as [|x l IH]; [done|]. cbn [map]. now rewrite lin2lin_same, IH.
Qed.

(** [silent(d, seg.frame_rate) + seg] for a stereo clip of 16 or 32 bits:
    the clip after two zeros per frame of silence, in its own format. *)
Lemma append_silent_stereo d a :
  channels a = Stereo -> sample_width a <> W1 ->
  append (silent d (frame_rate a)) a
    = ok (Segment
            (replicate (2 * Z.to_nat (silent_frames d (frame_rate a))) 0
             ++ samples a)
            (sample_width a) (frame_rate a) Stereo).
Proof.
  intros Hc Hw. unfold append, sync.
  cbn [channels frame_rate sample_width silent]. rewrite Hc.
  cbn [layout_max]. rewrite Z.max_id.
  assert (Hm : width_max W2 (sample_width a) = sample_width a)
    by (destruct (sample_width a); done).
  rewrite Hm. rewrite !conform_same_rate by done.
  cbn [rbind fst snd].
  unfold with_samples, set_sample_width.
  rewrite (set_channels_stereo_id a) by done.
  unfold set_channels, silent.
  cbn [channels frame_rate sample_width samples].
  f_equal. f_equal. f_equal.
  - unfold repeat_seq.
    rewrite concat_replicate_singleton, concat_replicate_pair.
    apply map_lin2lin_zeros.
  - apply map_lin2lin_same.
Qed.

Lemma interleave_fits w l r :
  Forall (fits w) l -> Forall (fits w) r -> Forall (fits w) (interleave l r).
Proof.
  intros Hl. revert r. induction Hl as [|x l Hx _ IH]; intros r Hr; [constructor|].
  destruct Hr as [|y r Hy Hr]; [constructor|].
  cbn [interleave]. constructor; [exact Hx|]. constructor; [exact Hy|].
  now apply IH.
Qed.

Lemma fits_zero w : fits w 0.
Proof.
  unfold fits. pose proof (width_bytes_pos w).
  assert (0 < 2 ^ (8 * width_bytes w - 1)) by (apply Z.pow_pos_nonneg; lia). lia.
Qed.

(** The last two steps of the widener on samples that fit the width: the
    segment built from the bytes holds the interleaved samples. *)
Lemma init_interleaved w fr l r :
  length l = length r -> Forall (fits w) l -> Forall (fits w) r ->
  AudioSegment_init (Bytes.tobytes (width_nat w) (interleave l r)) w fr Stereo
    = ok (Segment (interleave l r) w fr Stereo).
Proof.
  intros Hlen Hl Hr. unfold AudioSegment_init.
  pose proof (width_bytes_pos w) as Hw.
  assert (Hb : len (Bytes.tobytes (width_nat w) (interleave l r))
               = Z.of_nat (length l) * (width_bytes w * nchannels Stereo)).
  { unfold len. rewrite length_tobytes, length_interleave by done.
    unfold width_nat. cbn [nchannels]. lia. }
  rewrite Hb, Z.mod_mul by (cbn [nchannels]; lia). cbn [Z.eqb].
  rewrite frombytes_tobytes by now apply interleave_fits.
  reflexivity.
Qed.

(** The length in milliseconds of a segment with a positive rate is not
    negative. *)
Lemma seg_len_nonneg a :
  0 < frame_rate a -> exists n, seg_len a = ok n /\ 0 <= n.
Proof.
  intros Hr. unfold seg_len, ms_of_frames.
  destruct (Z.eqb_spec (frame_rate a) 0) as [?|_]; [lia|].
  eexists. split; [reflexivity|]. apply py_round_nonneg.
  apply not_negative_mul; [apply not_negative_1000|].
  apply not_negative_div; apply not_negative_float_of_Z; [|lia].
  unfold frame_count. apply Z.div_pos; [apply len_nonneg|apply nchannels_pos].
Qed.

Lemma frames_of_ms_nonneg rate ms :
  0 < rate -> 0 <= ms -> 0 <= py_int (frames_of_ms rate ms).
Proof.
  intros Hr Hm. apply py_int_nonneg. unfold frames_of_ms.
  apply not_negative_mul; [now apply not_negative_float_of_Z|].
  apply not_negative_div; [apply not_negative_float_of_Z; lia|].
  apply not_negative_1000.
Qed.

(** [seg[:n]] on a segment with a positive rate, for [n >= 0]: the first
    [k] samples for some [k], followed by silence only when [k] runs past
    the data; or [TooManyMissingFrames]. *)
Lemma getitem_slice_prefix_cases a n :
  0 < frame_rate a -> 0 <= n ->
  (exists k pad,
      0 <= k /\
      getitem_slice a 0 n
        = ok (with_samples a (take (Z.to_nat k) (samples a) ++ pad)) /\
      (pad = [] \/ len (samples a) < k)) \/
  fails_with "TooManyMissingFrames" (getitem_slice a 0 n).
Proof.
  intros Hr Hn. unfold getitem_slice.
  destruct (seg_len_nonneg a Hr) as (na & -> & Hna). cbn [rbind]. cbv zeta.
  rewrite (Z.min_l 0 na) by lia.
  rewrite !parse_position_nonneg by lia. cbn [rbind].
  unfold frame_count_ms.
  change (frames_of_ms (frame_rate a) 0)
    with (float_of_Z 0 * (float_of_Z (frame_rate a) / 1000))%float.
  rewrite py_int_zero_mul, Z.mul_0_l.
  set (fe := py_int (frames_of_ms (frame_rate a) (Z.min n na))).
  assert (Hfe : 0 <= fe) by (apply frames_of_ms_nonneg; lia).
  pose proof (nchannels_pos (channels a)) as Hc.
  set (k := fe * nchannels (channels a)).
  assert (Hk : 0 <= k) by (unfold k; nia).
  rewrite slice_prefix_take by exact Hk.
  destruct (Z.eqb_spec ((k - 0 - len (take (Z.to_nat k) (samples a)))
                        / nchannels (channels a)) 0) as [Hz|Hnz].
  - left. exists k, []. split; [exact Hk|]. rewrite app_nil_r.
    split; [reflexivity|now left].
  - destruct (_ <? _)%float; [right; eexists; reflexivity|].
    left. eexists k, _. split; [exact Hk|]. split; [reflexivity|]. right.
    destruct (Z.lt_ge_cases (len (samples a)) k) as [?|Hle]; [done|].
    exfalso. apply Hnz. unfold len in *. rewrite length_take.
    replace (k - 0 - Z.of_nat (Z.to_nat k `min` length (samples a))) with 0 by lia.
    apply Z.div_0_l. lia.
Qed.

(** On a stereo clip of 16 or 32 bits with a positive rate the widener
    returns, unless pydub's slice fails, the interleaving of the clip's
    samples, left and right in turn, with the same samples after two zeros
    per frame of delay, both cut to one length. *)
Lemma stereo_widen_stereo_values self audio delay_ms w :
  channels audio = Stereo ->
  0 < frame_rate audio ->
  sample_width audio <> W1 ->
  Forall (fits (sample_width audio)) (samples audio) ->
  (exists m w',
      0 <= m <= len (samples audio) /\
      stereo_widen self audio delay_ms w
        = (ok (Segment
                 (interleave
                    (take (Z.to_nat m) (samples audio))
                    (take (Z.to_nat m)
                       (replicate
                          (2 * Z.to_nat (silent_frames delay_ms (frame_rate audio)))
                          0
                        ++ samples audio)))
                 (sample_width audio) (frame_rate audio) Stereo),
           w') /\
      files w' = files w) \/
  fails_with "TooManyMissingFrames" (outcome (stereo_widen self audio delay_ms) w).
Proof.
  intros Hc Hr Hw Hfit.
  unfold outcome, stereo_widen, bind, logger_info, lift.
  rewrite (append_silent_stereo delay_ms audio Hc Hw).
  set (l := samples audio) in *.
  set (X := (replicate _ 0 ++ l)%list).
  set (right0 := Segment X (sample_width audio) (frame_rate audio) Stereo).
  destruct (seg_len_nonneg audio Hr) as (n & -> & Hn).
  destruct (getitem_slice_prefix_cases right0 n Hr Hn)
    as [(k & pad & Hk & -> & Hpad)|[msg ->]];
    [|right; eexists; reflexivity].
  left. unfold get_array_of_samples, with_samples.
  cbn [samples sample_width frame_rate channels]. fold l.
  change (samples right0) with X in *.
  pose proof (len_nonneg l) as Hl0.
  assert (HlX : len l <= len X).
  { unfold X, len. rewrite length_app. lia. }
  assert (Hcut : exists m,
             0 <= m <= len l /\
             Z.min (len l) (len (take (Z.to_nat k) X ++ pad)%list) = m /\
             take (Z.to_nat m) (take (Z.to_nat k) X ++ pad)%list
               = take (Z.to_nat m) X).
  { eexists. split; [|split; [reflexivity|]].
    - pose proof (len_nonneg (take (Z.to_nat k) X ++ pad)%list). lia.
    - destruct Hpad as [->|Hlt].
      + rewrite app_nil_r. rewrite take_take. f_equal.
        unfold len. rewrite length_take. lia.
      + rewrite (take_ge X) by (unfold len in Hlt; lia).
        rewrite take_app_le; [reflexivity|].
        unfold len in *. rewrite length_app. lia. }
  destruct Hcut as (m & Hm & Hmin & Htake).
  rewrite Hmin.
  rewrite !slice_prefix_take by lia. rewrite Htake.
  rewrite init_interleaved.
  - exists m. eexists. split; [exact Hm|]. split; reflexivity.
  - rewrite !length_take. unfold len in *. lia.
  - now apply Forall_take.
  - apply Forall_take. apply Forall_app. split; [|exact Hfit].
    apply Forall_replicate. apply fits_zero.
Qed.

End WidenValues.

(** * The claims *)

Import Py Pydub Engine.

(** ** C1 *)

(** C1.  Three 16-bit mono clips of 10, 8 and 12 seconds at 48 kHz go
    through the chain without error, and the Program has 11310480 frames of
    processed clips plus three pauses: more than six times the 36 seconds of
    the claim, since each of the first three stages doubles the sample
    count of a 16-bit clip. *)
Theorem C1_program_of_16bit_clips `{External} p1 p2 p3 a1 a2 a3 w :
  files w !! p1 = Some (WavFile a1) ->
  files w !! p2 = Some (WavFile a2) ->
  files w !! p3 = Some (WavFile a3) ->
  channels a1 = Mono -> channels a2 = Mono -> channels a3 = Mono ->
  frame_rate a1 = 48000 -> frame_rate a2 = 48000 -> frame_rate a3 = 48000 ->
  sample_width a1 = W2 -> sample_width a2 = W2 -> sample_width a3 = W2 ->
  len (samples a1) = 10 * 48000 ->
  len (samples a2) = 8 * 48000 ->
  len (samples a3) = 12 * 48000 ->
  returns (process_chain DSPEngine_default [p1; p2; p3]) w
    (fun program =>
       channels program = Stereo /\
       frame_rate program = 48000 /\
       len (samples program) = 2 * 11310480 + 3 * len (gap_samples W2) /\
       6 * (36 * 48000) < frames program).
Proof.
  intros Hf1 Hf2 Hf3 _ _ _ _ _ _ Hw1 Hw2 Hw3 Hl1 Hl2 Hl3.
  eapply returns_weaken.
  - apply (process_chain_three_clips W2 p1 p2 p3 a1 a2 a3 w
             3770160 3016128 4524192); try done.
    + rewrite Hl1. vm_compute. reflexivity.
    + rewrite Hl2. vm_compute. reflexivity.
    + rewrite Hl3. vm_compute. reflexivity.
  - intros program (Hc & Hr & Hl). split; [done|]. split; [done|].
    split; [rewrite Hl; lia|].
    unfold frames, frame_count. rewrite Hc, Hl. cbn [nchannels].
    pose proof (len_nonneg (gap_samples W2)).
    assert (11310480 <= (2 * (3770160 + 3016128 + 4524192)
                         + 3 * len (gap_samples W2)) / 2)
      by (apply Z.div_le_lower_bound; lia).
    lia.
Qed.

Lemma C1_witness :
  files w1 !! "clip10.wav" = Some (WavFile (zeros W2 Mono 480000)) /\
  Py.len (samples (zeros W2 Mono 480000)) = 10 * 48000 /\
  returns (Engine.process_chain (H := Placeholder.placeholder)
             Engine.DSPEngine_default
             ["clip10.wav"; "clip8.wav"; "clip12.wav"]) w1
    (fun program =>
       channels program = Stereo /\
       frame_rate program = 48000 /\
       Py.len (samples program)
         = 2 * 11310480 + 3 * Py.len (gap_samples (H := Placeholder.placeholder) W2) /\
       6 * (36 * 48000) < frames program).
Proof.
  split; [reflexivity|]. split; [now apply len_zeros|].
  apply (C1_program_of_16bit_clips
           "clip10.wav" "clip8.wav" "clip12.wav"
           (zeros W2 Mono 480000) (zeros W2 Mono 384000) (zeros W2 Mono 576000) w1);
    first [now apply len_zeros | reflexivity].
Defined.

(** ** C2 *)

(** C2.  On a 16-bit mono clip of 440 samples the pitch shifter of the
    default engine returns a clip of 864 frames, twice [floor(440 * 432 /
    440) = 432]. *)
Theorem C2_pitch_shift_16bit `{External} audio w :
  sample_width audio = W2 ->
  len (samples audio) = 440 ->
  returns (pitch_shift_432hz DSPEngine_default audio) w
          (fun seg => frames seg = 864 /\ 440 * 432 / 440 = 432).
Proof.
  intros Hw Hl.
  eapply returns_weaken.
  - apply (pitch_shift_returns DSPEngine_default audio w 432).
    + rewrite Hl. vm_compute. reflexivity.
    + lia.
    + intros E. rewrite E in Hl. discriminate.
  - intros seg (_ & _ & Hc & Hn). rewrite Hw in Hn. cbn [width_bytes] in Hn.
    unfold frames, frame_count. rewrite Hc. cbn [nchannels].
    rewrite Z.div_1_r. split; [lia|reflexivity].
Qed.

Lemma C2_witness :
  sample_width (ramp16 Mono 440) = W2 /\
  Py.len (samples (ramp16 Mono 440)) = 440 /\
  returns (Engine.pitch_shift_432hz (H := Placeholder.placeholder)
             Engine.DSPEngine_default (ramp16 Mono 440)) w0
          (fun seg => frames seg = 864 /\ 440 * 432 / 440 = 432).
Proof.
  split; [reflexivity|]. split; [reflexivity|].
  apply (C2_pitch_shift_16bit (ramp16 Mono 440) w0); reflexivity.
Defined.

(** ** C3 *)

(** C3.  The adapter round trip: encoding an array of [n] floats against an
    original of [sample_width] bytes per sample never fails, and decoding
    the result gives [4 * n / sample_width] items, not [n]: the encoder
    always writes 4-byte integers.  For a 16-bit original the decoded array
    is twice as long as the encoded one. *)
Theorem C3_round_trip_length `{External} self data orig :
  exists seg,
    _to_audio_segment self data orig = ok seg /\
    len (_to_numpy seg) * width_bytes (sample_width orig) = 4 * len data.
Proof.
  destruct (to_audio_segment_spec self data orig) as (seg & Hs & _ & _ & _ & Hl).
  exists seg. split; [done|]. now rewrite len_to_numpy.
Qed.

(** In exact arithmetic: the single value 0.5 encoded against a 16-bit
    original is the 32-bit integer 16383, stored as the two 16-bit samples
    16383 and 0. *)
Example C3_example :
  Engine._to_audio_segment (H := Placeholder.placeholder)
    Engine.DSPEngine_default [(1 # 2)%Q] (ramp16 Mono 1)
  = ok (Segment [16383; 0] W2 48000 Mono).
Proof. reflexivity. Qed.

(** ** C4 *)

(** C4.  With [wet_mix = 0] the reverb returns, for a 16-bit clip, a clip
    with twice the samples of its input: neither the dry signal nor its
    length. *)
Theorem C4_reverb_16bit_length `{External} self audio w :
  0 < sample_rate self ->
  sample_width audio = W2 ->
  returns (add_reverb self audio 0) w
          (fun seg => len (samples seg) = 2 * len (samples audio)).
Proof.
  intros Hsr Hw. eapply returns_weaken; [now apply add_reverb_returns|].
  intros seg (_ & _ & _ & Hn). rewrite Hw in Hn. cbn [width_bytes] in Hn. lia.
Qed.

Lemma C4_witness :
  0 < Engine.sample_rate Engine.DSPEngine_default /\
  sample_width (ramp16 Mono 1) = W2 /\
  returns (Engine.add_reverb (H := Placeholder.placeholder)
             Engine.DSPEngine_default (ramp16 Mono 1) 0) w0
          (fun seg => Py.len (samples seg)
                      = 2 * Py.len (samples (ramp16 Mono 1))).
Proof.
  split; [reflexivity|]. split; [reflexivity|].
  apply (C4_reverb_16bit_length Engine.DSPEngine_default (ramp16 Mono 1) w0);
    reflexivity.
Defined.

(** In exact arithmetic, on an engine of 8 Hz: the single 16-bit sample
    1000 leaves the reverb with [wet_mix = 0] as 999 followed by 0. *)
Example C4_example :
  outcome (Engine.add_reverb (H := Placeholder.placeholder)
             {| Engine.sample_rate := 8 |} (Segment [1000] W2 8 Mono) 0) w0
  = ok (Segment [999; 0] W2 8 Mono).
Proof. vm_compute. reflexivity. Qed.

(** ** C5 *)

(** C5 (as amended).  [apply_deesser] takes no ratio and no band: the ratio
    is the constant 6 and the band 4000-8000 Hz.  It never raises
    [InvalidParameterError] or [InvalidBandError]; when the engine's rate
    is between 1 and 16000 Hz, so that 8000 Hz is at or above the Nyquist
    frequency, it raises scipy's [ValueError]. *)
Theorem C5_deesser_validation `{External} self audio threshold w :
  1 < ratio /\
  ~ fails_with "InvalidParameterError"
      (outcome (apply_deesser self audio threshold) w) /\
  ~ fails_with "InvalidBandError"
      (outcome (apply_deesser self audio threshold) w) /\
  (0 < sample_rate self <= 16000 ->
   outcome (apply_deesser self audio threshold) w
     = raise (ValueError "Digital filter critical frequencies must be 0 < Wn < 1")).
Proof.
  split; [reflexivity|].
  assert (Hcls : forall cls,
             fails_with cls (outcome (apply_deesser self audio threshold) w) ->
             In cls ["ZeroDivisionError"; "ValueError"]).
  { intros cls [msg E]. unfold outcome in E.
    destruct (apply_deesser self audio threshold w) as [r w'] eqn:Er.
    cbn [fst] in E. subst r.
    apply (apply_deesser_raises self audio threshold w _ w' Er). }
  split; [|split].
  - intros Hf. apply Hcls in Hf. cbn in Hf. intuition discriminate.
  - intros Hf. apply Hcls in Hf. cbn in Hf. intuition discriminate.
  - intros Hsr. apply apply_deesser_rejected. now apply band_rejected_upto_16000.
Qed.

(** C5, the claim as stated: at 16 kHz the band's upper edge is the Nyquist
    frequency, and the de-esser fails with [ValueError], not with
    [InvalidBandError]. *)
Lemma C5_counterexample :
  8000 >= 16000 / 2 /\
  fails_with "ValueError"
    (outcome (Engine.apply_deesser (H := Placeholder.placeholder)
                {| Engine.sample_rate := 16000 |} (ramp16 Mono 40) 0.1) w0) /\
  ~ fails_with "InvalidBandError"
    (outcome (Engine.apply_deesser (H := Placeholder.placeholder)
                {| Engine.sample_rate := 16000 |} (ramp16 Mono 40) 0.1) w0).
Proof.
  split; [vm_compute; discriminate|].
  assert (E : outcome (Engine.apply_deesser (H := Placeholder.placeholder)
                {| Engine.sample_rate := 16000 |} (ramp16 Mono 40) 0.1) w0
              = raise (ValueError "Digital filter critical frequencies must be 0 < Wn < 1"))
    by (vm_compute; reflexivity).
  rewrite E. split.
  - eexists; reflexivity.
  - intros [msg Hm]. discriminate.
Qed.

Lemma C5_witness :
  0 < 16000 <= 16000 /\
  outcome (Engine.apply_deesser (H := Placeholder.placeholder)
             {| Engine.sample_rate := 16000 |} (ramp16 Mono 40) 0.1) w0
    = raise (ValueError "Digital filter critical frequencies must be 0 < Wn < 1").
Proof.
  split; [lia|].
  apply (C5_deesser_validation {| Engine.sample_rate := 16000 |}
           (ramp16 Mono 40) 0.1 w0).
  cbn. lia.
Defined.

(** ** C6 *)

(** C6 (as amended).  On a stereo segment the widener makes no layout check
    and never raises [UnsupportedChannelLayoutError]: unless pydub's slice
    raises [TooManyMissingFrames], it returns a stereo segment in the
    input's format.  For a clip of 16 or 32 bits with a positive rate that
    segment is built by interleaving the input's samples, which already
    alternate left and right, with their delayed copy: its left channel is
    the first [m] samples of the input, its right channel the first [m]
    samples of the input after two zeros per frame of delay, so it has [m]
    frames, up to twice the frames of the input. *)
Theorem C6_stereo_widen_on_stereo `{External} self audio delay_ms w :
  channels audio = Stereo ->
  frame_rate audio <> 0 ->
  ~ fails_with "UnsupportedChannelLayoutError"
      (outcome (stereo_widen self audio delay_ms) w) /\
  ((exists seg,
       outcome (stereo_widen self audio delay_ms) w = ok seg /\
       channels seg = Stereo /\
       sample_width seg = sample_width audio /\
       frame_rate seg = frame_rate audio) \/
   fails_with "TooManyMissingFrames"
     (outcome (stereo_widen self audio delay_ms) w)) /\
  (0 < frame_rate audio ->
   sample_width audio <> W1 ->
   Forall (fits (sample_width audio)) (samples audio) ->
   (exists m,
       0 <= m <= len (samples audio) /\
       outcome (stereo_widen self audio delay_ms) w
         = ok (Segment
                 (interleave
                    (take (Z.to_nat m) (samples audio))
                    (take (Z.to_nat m)
                       (replicate
                          (2 * Z.to_nat (silent_frames delay_ms
                                                       (frame_rate audio)))
                          0
                        ++ samples audio)%list))
                 (sample_width audio) (frame_rate audio) Stereo)) \/
   fails_with "TooManyMissingFrames"
     (outcome (stereo_widen self audio delay_ms) w)).
Proof.
  intros Hc Hr. split; [|split].
  - destruct (stereo_widen_cases self audio delay_ms w Hr)
      as [(seg & w' & Hs & _)|Hf].
    + unfold outcome. rewrite Hs. apply not_fails_with_ok.
    + eapply fails_with_class; [exact Hf|done].
  - destruct (stereo_widen_cases self audio delay_ms w Hr)
      as [(seg & w' & Hs & _ & Hch & Hsw & Hfr & _)|Hf].
    + left. exists seg. unfold outcome. rewrite Hs. done.
    + now right.
  - intros Hpos Hw Hfit.
    destruct (stereo_widen_stereo_values self audio delay_ms w Hc Hpos Hw Hfit)
      as [(m & w' & Hm & Hs & _)|Hf]; [left|now right].
    exists m. split; [exact Hm|]. unfold outcome. now rewrite Hs.
Qed.

(** C6, the claim as stated: a stereo clip of 96 frames goes through the
    widener without any error, and comes out with 192 frames. *)
Lemma C6_counterexample :
  channels (ramp16 Stereo 192) = Stereo /\
  (exists seg,
      outcome (Engine.stereo_widen (H := Placeholder.placeholder)
                 Engine.DSPEngine_default (ramp16 Stereo 192) 15) w0 = ok seg /\
      channels seg = Stereo /\ frames seg = 192) /\
  ~ fails_with "UnsupportedChannelLayoutError"
      (outcome (Engine.stereo_widen (H := Placeholder.placeholder)
                  Engine.DSPEngine_default (ramp16 Stereo 192) 15) w0).
Proof.
  split; [reflexivity|].
  destruct (outcome (Engine.stereo_widen (H := Placeholder.placeholder)
              Engine.DSPEngine_default (ramp16 Stereo 192) 15) w0)
    as [e|seg] eqn:E; vm_compute in E; [discriminate|].
  injection E as <-. split.
  - eexists. split; [reflexivity|]. split; reflexivity.
  - intros [msg Hm]. discriminate.
Qed.

Lemma C6_witness :
  channels (ramp16 Stereo 192) = Stereo /\
  0 < frame_rate (ramp16 Stereo 192) /\
  sample_width (ramp16 Stereo 192) <> W1 /\
  Forall (fits (sample_width (ramp16 Stereo 192))) (samples (ramp16 Stereo 192)) /\
  ((exists m,
       0 <= m <= len (samples (ramp16 Stereo 192)) /\
       outcome (Engine.stereo_widen (H := Placeholder.placeholder)
                  Engine.DSPEngine_default (ramp16 Stereo 192) 15) w0
         = ok (Segment
                 (interleave
                    (take (Z.to_nat m) (samples (ramp16 Stereo 192)))
                    (take (Z.to_nat m)
                       (replicate (2 * Z.to_nat (silent_frames 15 48000)) 0
                        ++ samples (ramp16 Stereo 192))%list))
                 W2 48000 Stereo)) \/
   fails_with "TooManyMissingFrames"
     (outcome (Engine.stereo_widen (H := Placeholder.placeholder)
                 Engine.DSPEngine_default (ramp16 Stereo 192) 15) w0)).
Proof.
  assert (Hfit : Forall (fits (sample_width (ramp16 Stereo 192)))
                        (samples (ramp16 Stereo 192))).
  { apply Forall_forall. intros s Hs. apply list_elem_of_In in Hs.
    apply in_map_iff in Hs as (k & <- & Hk). apply in_seq in Hk.
    unfold fits. cbn [sample_width ramp16 width_bytes]. lia. }
  split; [reflexivity|]. split; [reflexivity|]. split; [discriminate|].
  split; [exact Hfit|].
  destruct (C6_stereo_widen_on_stereo (H := Placeholder.placeholder)
              Engine.DSPEngine_default (ramp16 Stereo 192) 15 w0)
    as (_ & _ & Hvalues); [reflexivity|discriminate|].
  apply Hvalues; [reflexivity|discriminate|exact Hfit].
Defined.

(** On that clip the cut is at all 192 samples: the left channel of the
    result is the clip, left and right in turn, and the right channel is
    silent, the delay being longer than the clip. *)
Example C6_example :
  outcome (Engine.stereo_widen (H := Placeholder.placeholder)
             Engine.DSPEngine_default (ramp16 Stereo 192) 15) w0
  = ok (Segment (interleave (samples (ramp16 Stereo 192)) (replicate 192 0))
                W2 48000 Stereo).
Proof. vm_compute. reflexivity. Qed.

(** ** C7 *)

(** C7.  On a mono 16-bit clip of 100 frames at 48 kHz (2.08 ms) with a
    delay of 1 ms the widener returns 96 frames: the delayed copy is cut at
    a whole number of milliseconds and the left channel is cut to match. *)
Theorem C7_stereo_widen_drops_frames `{External} w :
  frames (ramp16 Mono 100) = 100 /\
  returns (stereo_widen DSPEngine_default (ramp16 Mono 100) 1) w
          (fun seg => channels seg = Stereo /\ frames seg = 96).
Proof.
  split; [reflexivity|].
  eapply returns_weaken.
  - apply (stereo_widen_mono DSPEngine_default (ramp16 Mono 100) 1 w 2 3 96);
      vm_compute; (reflexivity || (split; congruence)).
  - intros seg (Hc & _ & _ & Hl). split; [done|].
    unfold frames, frame_count. rewrite Hc, Hl. reflexivity.
Qed.

(** ** C8 *)

(** C8 (as amended).  A segment whose samples are all zero is returned by
    the limiter unchanged; nothing is raised. *)
Theorem C8_master_limiter_on_silence `{External} self audio target_lufs w :
  Forall (fun s => s = 0) (samples audio) ->
  outcome (master_limiter self audio target_lufs) w = ok audio.
Proof.
  intros Hz. unfold outcome, master_limiter, bind, logger_info, ret. cbn [fst].
  unfold normalize.
  assert (Hm : seg_max audio = 0).
  { unfold seg_max. induction Hz as [|s l -> _ IH]; [done|].
    cbn [foldr]. rewrite IH. reflexivity. }
  now rewrite Hm.
Qed.

(** C8, the claim as stated: four frames of 16-bit stereo silence come back
    from the limiter as they went in. *)
Lemma C8_counterexample :
  Pydub.seg_max (zeros W2 Stereo 8) = 0 /\
  outcome (Engine.master_limiter (H := Placeholder.placeholder)
             Engine.DSPEngine_default (zeros W2 Stereo 8) (-16)) w0
    = ok (zeros W2 Stereo 8) /\
  ~ fails_with "SilentBufferError"
      (outcome (Engine.master_limiter (H := Placeholder.placeholder)
                  Engine.DSPEngine_default (zeros W2 Stereo 8) (-16)) w0).
Proof.
  split; [reflexivity|].
  assert (E : outcome (Engine.master_limiter (H := Placeholder.placeholder)
                Engine.DSPEngine_default (zeros W2 Stereo 8) (-16)) w0
              = ok (zeros W2 Stereo 8)) by reflexivity.
  rewrite E. split; [reflexivity|]. intros [msg Hm]. discriminate.
Qed.

Lemma C8_witness :
  Forall (fun s => s = 0) (samples (zeros W2 Stereo 8)) /\
  outcome (Engine.master_limiter (H := Placeholder.placeholder)
             Engine.DSPEngine_default (zeros W2 Stereo 8) (-16)) w0
    = ok (zeros W2 Stereo 8).
Proof.
  assert (Hz : Forall (fun s => s = 0) (samples (zeros W2 Stereo 8)))
    by (repeat constructor).
  split; [exact Hz|].
  exact (C8_master_limiter_on_silence Engine.DSPEngine_default
           (zeros W2 Stereo 8) (-16) w0 Hz).
Defined.

(** ** C9 *)

(** C9 (as amended).  When the loop body fails on some clip, the run fails
    with that stage's own exception, unchanged; the handler logs one error
    record made of the exception's message, and the files are those the run
    started with: nothing is exported.  No clip index is in the exception
    or in the record (the traceback that [exc_info=True] attaches to the
    record is not modelled). *)
Theorem C9_failed_run `{External} paths w i e :
  failing_clip paths w = Some (i, e) ->
  outcome (run_pipeline_dsp paths) w = raise e /\
  last (log (snd (run_pipeline_dsp paths w)))
    = Some (Error [Txt "❌ Pipeline failed: "; Txt (exn_msg e)]) /\
  files (snd (run_pipeline_dsp paths w)) = files w.
Proof.
  intros Hf. destruct (run_pipeline_dsp_failure paths w i e Hf) as (w' & Hr & Hk).
  unfold outcome. rewrite Hr. cbn [fst snd log files].
  split; [reflexivity|]. split; [apply last_snoc|exact Hk].
Qed.

(** C9, the claim as stated: two runs that fail on different clips, the
    first and the second, raise the same exception and log the same error
    record, so the report of a failed run does not tell which clip
    failed. *)
Lemma C9_counterexample :
  failing_clip (H := Placeholder.placeholder) ["short.wav"; "long.wav"] w9
    = Some (1%nat, too_short_for_filter) /\
  failing_clip (H := Placeholder.placeholder) ["long.wav"; "short.wav"] w9
    = Some (2%nat, too_short_for_filter) /\
  failure_report (H := Placeholder.placeholder) ["short.wav"; "long.wav"] w9
    = failure_report (H := Placeholder.placeholder) ["long.wav"; "short.wav"] w9.
Proof.
  assert (HA : failing_clip (H := Placeholder.placeholder)
                 ["short.wav"; "long.wav"] w9
               = Some (1%nat, too_short_for_filter)).
  { unfold failing_clip. cbn [first_failure].
    destruct (chain_clip_too_short (H := Placeholder.placeholder)
                Pydub.empty "short.wav" (ramp32 10)
                (snd (logger_info [Txt "--- Stage 3: DSP Processing ---"] w9)) 9)
      as (w' & ->);
      [reflexivity|reflexivity|lia|discriminate|vm_compute; discriminate|].
    reflexivity. }
  assert (HB : failing_clip (H := Placeholder.placeholder)
                 ["long.wav"; "short.wav"] w9
               = Some (2%nat, too_short_for_filter)).
  { unfold failing_clip. cbn [first_failure].
    destruct (chain_clip_returns (H := Placeholder.placeholder)
                Pydub.empty "long.wav" (ramp32 100)
                (snd (logger_info [Txt "--- Stage 3: DSP Processing ---"] w9)) 96)
      as (c & w' & -> & Hk & _); [reflexivity|vm_compute; reflexivity|now left|].
    destruct (chain_clip_too_short (H := Placeholder.placeholder)
                c "short.wav" (ramp32 10) w' 9)
      as (w'' & ->);
      [now rewrite Hk|reflexivity|lia|discriminate|vm_compute; discriminate|].
    reflexivity. }
  split; [exact HA|]. split; [exact HB|].
  destruct (run_pipeline_dsp_failure _ _ _ _ HA) as (wa & Ha & _).
  destruct (run_pipeline_dsp_failure _ _ _ _ HB) as (wb & Hb & _).
  unfold failure_report, outcome. rewrite Ha, Hb. cbn [fst snd log].
  now rewrite !last_snoc.
Qed.

Lemma C9_witness :
  failing_clip (H := Placeholder.placeholder) ["short.wav"; "long.wav"] w9
    = Some (1%nat, too_short_for_filter) /\
  files (snd (Engine.run_pipeline_dsp (H := Placeholder.placeholder)
                ["short.wav"; "long.wav"] w9)) = files w9.
Proof.
  assert (HA : failing_clip (H := Placeholder.placeholder)
                 ["short.wav"; "long.wav"] w9
               = Some (1%nat, too_short_for_filter)).
  { unfold failing_clip. cbn [first_failure].
    destruct (chain_clip_too_short (H := Placeholder.placeholder)
                Pydub.empty "short.wav" (ramp32 10)
                (snd (logger_info [Txt "--- Stage 3: DSP Processing ---"] w9)) 9)
      as (w' & ->);
      [reflexivity|reflexivity|lia|discriminate|vm_compute; discriminate|].
    reflexivity. }
  split; [exact HA|].
  apply (C9_failed_run ["short.wav"; "long.wav"] w9 1%nat too_short_for_filter HA).
Defined.

(** ** C10 *)



(** * Further properties *)

(** ** Tables of float computations *)
Section Tables.
Import Py.

Lemma all_from_spec f z fuel :
  all_from f z fuel = true ->
  forall x, z <= x < z + Z.of_nat fuel -> f x = true.
Proof.
  revert z. induction fuel as [|k IH]; intros z Hall x Hx; [lia|].
  cbn [all_from] in Hall. destruct (f z) eqn:Ez; [|done].
  destruct (Z.eq_dec x z) as [->|Hne]; [done|].
  apply (IH (z + 1) Hall). lia.
Qed.

Lemma floor_shift_eq m e : floor_mag m e = floor_shift m e.
Proof.
  destruct e as [|p|p]; try reflexivity.
  unfold floor_mag, floor_shift. now rewrite Z.shiftr_div_pow2 by lia.
Qed.

Lemma round_shift_eq m e : round_mag m e = round_shift m e.
Proof.
  destruct e as [|p|p]; try reflexivity.
  unfold round_mag, round_shift.
  now rewrite Z.shiftr_div_pow2, Z.land_ones by lia.
Qed.

Lemma py_int_shift_eq x : py_int x = py_int_shift x.
Proof.
  unfold py_int, py_int_shift. destruct (Prim2SF x); try reflexivity.
  now rewrite floor_shift_eq.
Qed.

Lemma py_round_shift_eq x : py_round x = py_round_shift x.
Proof.
  unfold py_round, py_round_shift. destruct (Prim2SF x); try reflexivity.
  now rewrite round_shift_eq.
Qed.

Lemma ms_table_spec fuel :
  forall F q r,
    ms_table F q r fuel = true -> F = 48 * q + r -> 0 <= r < 48 ->
    forall x, F <= x < F + Z.of_nat fuel ->
      nearest_ms x (py_round (1000 * (float_of_Z x / float_of_Z 48000))%float)
        = true.
Proof.
  induction fuel as [|k IH]; intros F q r Ht HF Hr x Hx; [lia|].
  cbn [ms_table] in Ht. cbv zeta in Ht.
  apply andb_prop in Ht as [Hhere Hnext].
  destruct (Z.eq_dec x F) as [->|Hne].
  - unfold nearest_ms. rewrite py_round_shift_eq.
    assert (Hq : F / 48 = q) by (symmetry; apply (Z.div_unique F 48 q r); lia).
    assert (Hm : F mod 48 = r) by (symmetry; apply (Z.mod_unique F 48 q r); lia).
    rewrite Hq, Hm. exact Hhere.
  - destruct (Z.eqb_spec r 47) as [->|Hr47].
    + apply (IH (F + 1) (q + 1) 0 Hnext); lia.
    + apply (IH (F + 1) q (r + 1) Hnext); lia.
Qed.

Lemma count_table_spec fuel :
  forall n q r,
    count_table n q r fuel = true -> n * 432 = 440 * q + r -> 0 <= r < 440 ->
    forall x, n <= x < n + Z.of_nat fuel ->
      py_int (float_of_Z x * (float_of_Z 48000 * (432 / 440))
              / float_of_Z 48000)%float
        = x * 432 / 440.
Proof.
  induction fuel as [|k IH]; intros n q r Ht Hn Hr x Hx; [lia|].
  cbn [count_table] in Ht.
  apply andb_prop in Ht as [Hhere Hnext].
  destruct (Z.eq_dec x n) as [->|Hne].
  - rewrite py_int_shift_eq. apply Z.eqb_eq in Hhere. rewrite Hhere.
    apply (Z.div_unique (n * 432) 440 q r); lia.
  - destruct (Z.ltb_spec r 8).
    + apply (IH (n + 1) q (r + 432) Hnext); lia.
    + apply (IH (n + 1) (q + 1) (r - 8) Hnext); lia.
Qed.

Lemma ms_table_holds : ms_table 0 0 0 (Z.to_nat 480721) = true.
Proof. vm_cast_no_check (eq_refl true). Qed.

Lemma count_table_holds : count_table 0 0 0 (Z.to_nat 480001) = true.
Proof. vm_cast_no_check (eq_refl true). Qed.

Lemma frames_table_holds : all_from frames_checked 0 (Z.to_nat 10002) = true.
Proof. vm_cast_no_check (eq_refl true). Qed.

Lemma nearest_ms_bounds F n :
  0 <= F -> nearest_ms F n = true ->
  0 <= n /\ F - 24 <= 48 * n <= F + 24 /\
  (F mod 48 < 24 -> 48 * n = F - F mod 48) /\
  (24 < F mod 48 -> F < 48 * n).
Proof.
  intros HF. unfold nearest_ms.
  pose proof (Z.div_mod F 48 ltac:(lia)).
  pose proof (Z.mod_pos_bound F 48 ltac:(lia)).
  assert (0 <= F / 48) by (apply Z.div_pos; lia).
  destruct (Z.ltb_spec (F mod 48) 24).
  { intros ->%Z.eqb_eq. lia. }
  destruct (Z.ltb_spec 24 (F mod 48)).
  { intros ->%Z.eqb_eq. lia. }
  intros [->%Z.eqb_eq| ->%Z.eqb_eq]%orb_prop; lia.
Qed.

Lemma ms_of_frames_48000 F :
  Pydub.ms_of_frames F 48000
    = ok (py_round (1000 * (float_of_Z F / float_of_Z 48000))%float).
Proof. reflexivity. Qed.

(** For clips of up to 480000 frames (10 s at 48 kHz) pydub's length in
    milliseconds is a nearest integer, the delayed copy of the widener is
    not shorter in milliseconds, and the length is read back as a whole
    number of milliseconds of frames. *)
Lemma frames_upto_480000 F :
  0 <= F <= 480000 ->
  exists nr,
    Pydub.ms_of_frames F 48000 = ok (clip_ms F) /\
    nearest_ms F (clip_ms F) = true /\
    Pydub.ms_of_frames (720 + F) 48000 = ok nr /\
    clip_ms F <= nr /\
    py_int (Pydub.frames_of_ms 48000 (clip_ms F)) = 48 * clip_ms F.
Proof.
  intros HF.
  pose proof (ms_table_spec _ 0 0 0 ms_table_holds eq_refl ltac:(lia) F
                ltac:(lia)) as Hn.
  pose proof (ms_table_spec _ 0 0 0 ms_table_holds eq_refl ltac:(lia) (720 + F)
                ltac:(lia)) as Hnr.
  unfold clip_ms. rewrite !ms_of_frames_48000.
  set (n := py_round (1000 * (float_of_Z F / float_of_Z 48000))%float) in *.
  set (nr := py_round (1000 * (float_of_Z (720 + F) / float_of_Z 48000))%float) in *.
  destruct (nearest_ms_bounds F n ltac:(lia) Hn) as (Hn0 & Hnb & _).
  destruct (nearest_ms_bounds (720 + F) nr ltac:(lia) Hnr) as (_ & Hnrb & _).
  exists nr. repeat split; try done; [lia|].
  pose proof (all_from_spec _ _ _ frames_table_holds n ltac:(lia)) as Hc.
  unfold frames_checked in Hc. rewrite <- py_int_shift_eq in Hc.
  now apply Z.eqb_eq in Hc.
Qed.

Lemma num_samples_upto_480000 n :
  0 <= n <= 480000 ->
  Engine.num_samples Engine.DSPEngine_default n = ok (n * 432 / 440).
Proof.
  intros Hn.
  change (Engine.num_samples Engine.DSPEngine_default n)
    with (ok (py_int (float_of_Z n * (float_of_Z 48000 * (432 / 440))
                      / float_of_Z 48000)%float)).
  f_equal.
  apply (count_table_spec _ 0 0 0 count_table_holds eq_refl ltac:(lia)). lia.
Qed.

(** The widener keeps all of a clip but at most 24 frames; it keeps all of
    it when the frames beyond the last whole millisecond are none or more
    than 24, and cuts them when they are fewer than 24. *)
Lemma kept_frames_upto_480000 F :
  0 <= F <= 480000 ->
  F - 24 <= kept_frames F <= F /\
  (F mod 48 = 0 \/ 24 < F mod 48 -> kept_frames F = F) /\
  (F mod 48 < 24 -> kept_frames F = F - F mod 48).
Proof.
  intros HF. destruct (frames_upto_480000 F HF) as (nr & _ & Hn & _).
  destruct (nearest_ms_bounds F (clip_ms F) ltac:(lia) Hn) as (H0 & Hb & Hlo & Hhi).
  pose proof (Z.mod_pos_bound F 48 ltac:(lia)).
  unfold kept_frames. split; [lia|]. split.
  - intros [Hz|Hgt]; [specialize (Hlo ltac:(lia))|specialize (Hhi Hgt)]; lia.
  - intros Hlt. specialize (Hlo Hlt). lia.
Qed.

(** With these lengths the widener's float tests pass. *)
Lemma widened_frames_upto_480000 F :
  0 <= F <= 480000 -> widened_frames F = Some (kept_frames F).
Proof.
  intros HF.
  destruct (frames_upto_480000 F HF) as (nr & Hn & Hnear & Hnr & Hle & Hfe).
  destruct (nearest_ms_bounds F (clip_ms F) ltac:(lia) Hnear) as (Hr0 & Hr & _).
  unfold widened_frames, kept_frames.
  replace (Pydub.silent_frames 15 48000) with 720 by (vm_compute; reflexivity).
  change (Z.max 0 720) with 720. rewrite Hn, Hnr. cbv zeta. rewrite Hfe.
  replace (Py.py_int (Pydub.frames_of_ms 48000 0)) with 0 by (vm_compute; reflexivity).
  destruct (Z.leb_spec 0 (clip_ms F)); [|lia].
  destruct (Z.leb_spec (clip_ms F) nr); [|lia].
  destruct (Z.leb_spec 0 (48 * clip_ms F)); [|lia].
  destruct (Z.leb_spec (48 * clip_ms F) (720 + F)); [|lia].
  reflexivity.
Qed.

End Tables.

(** ** The widener on mono clips, sample by sample *)
Section WidenMonoValues.
Context `{External}.
Import Py Pydub Engine.



End WidenMonoValues.

Section WidenTheorems.
Context `{External}.
Import Py Pydub Engine.


End WidenTheorems.

(** ** The adapters and the stages on 32-bit clips *)
Section Stages32.
Context `{External}.
Import Py Pydub Engine.

Lemma astype_int32_fits x : fits W4 (astype_int32 x).
Proof. unfold fits. cbn [width_bytes]. apply astype_int32_range. Qed.

(** For a 32-bit original the encoder's four bytes per item are one sample
    each: the samples are the encoder's integers. *)
Lemma to_audio_segment_32bit_values self data orig :
  sample_width orig = W4 ->
  _to_audio_segment self data orig
    = ok (Segment (map (fun x => astype_int32 (fmul_int x (2 ^ 31 - 1))) data)
                  W4 (sample_rate self) Mono).
Proof.
  intros Hw. unfold _to_audio_segment, AudioSegment_init. rewrite Hw.
  change (2 ^ (8 * width_bytes W4 - 1) - 1) with (2 ^ 31 - 1).
  set (ints := map _ data).
  assert (Hlen : len (Bytes.tobytes 4 ints) = len data * 4).
  { unfold len, ints. rewrite length_tobytes, length_map. lia. }
  rewrite Hlen. change (width_bytes W4 * nchannels Mono) with 4.
  rewrite Z.mod_mul by lia. cbn [Z.eqb].
  change 4%nat with (width_nat W4).
  rewrite frombytes_tobytes; [reflexivity|].
  unfold ints. apply Forall_map. apply Forall_forall. intros x _. cbn.
  apply astype_int32_fits.
Qed.

Lemma encoded_32bit self audio n seg :
  sample_width audio = W4 -> encoded self audio n seg ->
  sample_width seg = W4 /\ frame_rate seg = sample_rate self /\
  channels seg = Mono /\ len (samples seg) = n.
Proof.
  intros Hw (Hsw & Hfr & Hch & Hl). rewrite Hw in *. cbn [width_bytes] in Hl.
  repeat split; try done. lia.
Qed.

End Stages32.

(** ** The run of stage 3 *)
Section RunLemmas.
Context `{External}.
Import Py Pydub Engine.

Lemma process_chain_empty self w :
  exists w', process_chain self [] w = (ok empty, w') /\ files w' = files w.
Proof.
  unfold process_chain. cbn [chain_loop]. unfold bind, ret, master_limiter, bind,
    logger_info. eexists. split; reflexivity.
Qed.


Lemma chain_clip_not_audio self combined path w :
  files w !! path = Some NotAudio ->
  chain_clip self combined path w
    = (raise (Exn "CouldntDecodeError"
                  "Decoding failed. ffmpeg returned error code: 1"), w).
Proof.
  intros Hf. unfold chain_clip, bind at 1. unfold from_wav at 1. now rewrite Hf.
Qed.

(** A clip of 32 bits and 29 to 480000 samples leaves the four stages with
    [kept_frames] of its pitch-shifted length. *)
Lemma clip_frames_32bit n :
  29 <= n <= 480000 ->
  clip_frames W4 n = Some (kept_frames (n * 432 / 440)).
Proof.
  intros Hn. unfold clip_frames. change (4 / width_bytes W4) with 1.
  rewrite num_samples_upto_480000 by lia.
  assert (28 <= n * 432 / 440) by (apply Z.div_le_lower_bound; lia).
  assert (n * 432 / 440 <= n) by (apply Z.div_le_upper_bound; lia).
  rewrite !Z.mul_1_l.
  destruct (Z.ltb_spec 0 n); [|lia].
  destruct (Z.ltb_spec 0 (n * 432 / 440)); [|lia].
  destruct (Z.ltb_spec 27 (n * 432 / 440)); [|lia].
  cbn [andb]. apply widened_frames_upto_480000. lia.
Qed.

Lemma program_frames_bounds clips :
  Forall (fun a => 0 <= len (samples a) <= 480000) clips ->
  shifted_frames clips - 24 * len clips <= program_frames clips
  /\ program_frames clips <= shifted_frames clips.
Proof.
  induction 1 as [|a clips Ha _ IH].
  { unfold program_frames, shifted_frames, len. cbn [foldr length]. lia. }
  unfold program_frames, shifted_frames. cbn [foldr].
  fold (program_frames clips). fold (shifted_frames clips).
  assert (0 <= len (samples a) * 432 / 440 <= 480000).
  { split; [apply Z.div_pos; lia|].
    apply Z.div_le_upper_bound; lia. }
  destruct (kept_frames_upto_480000 (len (samples a) * 432 / 440)) as (Hb & _);
    [lia|].
  replace (len (a :: clips)) with (len clips + 1)
    by (unfold len; cbn [length]; lia).
  lia.
Qed.

(** The loop of [process_chain] over 32-bit clips. *)
Lemma chain_loop_32bit paths :
  forall clips combined w,
    Forall2 (fun p a => files w !! p = Some (WavFile a) /\
                        sample_width a = W4 /\
                        29 <= len (samples a) <= 480000) paths clips ->
    assembling W4 combined ->
    returns (chain_loop DSPEngine_default combined paths) w
      (fun c => assembling W4 c /\
                (channels combined = Stereo \/ paths <> [] ->
                 channels c = Stereo) /\
                len (samples c)
                  = len (samples combined) + 2 * program_frames clips
                    + len paths * len (gap_samples W4)).
Proof.
  induction paths as [|p paths IH]; intros clips combined w Hall Hasm.
  - apply Forall2_nil_inv_l in Hall. subst clips. cbn [chain_loop].
    apply returns_ret. split; [done|]. split; [intros [?|?]; done|].
    change (program_frames []) with 0. change (len (@nil string)) with 0. lia.
  - apply Forall2_cons_inv_l in Hall as (a & clips' & (Hf & Hw & Hn) & Hall & ->).
    cbn [chain_loop].
    eapply returns_bind.
    + apply (chain_clip_returns combined p a w
               (kept_frames (len (samples a) * 432 / 440)));
        [exact Hf|rewrite Hw; now apply clip_frames_32bit|now rewrite Hw].
    + intros c w' Hfiles (Hasm' & Hch & Hl). rewrite Hw in *.
      change (width_max W4 W2) with W4 in *.
      eapply returns_weaken.
      * apply (IH clips' c w'); [|exact Hasm'].
        eapply Forall2_impl; [exact Hall|]. intros p' a' (? & ? & ?).
        rewrite Hfiles. done.
      * intros c' (Hasm'' & Hfmt & Hl'). split; [exact Hasm''|]. split.
        { intros _. apply Hfmt. now left. }
        rewrite Hl', Hl. unfold program_frames. cbn [foldr].
        fold (program_frames clips').
        replace (len (p :: paths)) with (len paths + 1)
          by (unfold len; cbn [length]; lia).
        lia.
Qed.

(** [process_chain] over 32-bit clips of 29 to 480000 samples: the Program
    is stereo at 48 kHz and holds the widened clips and one pause each. *)
Lemma process_chain_32bit paths clips w :
  paths <> [] ->
  Forall2 (fun p a => files w !! p = Some (WavFile a) /\
                      sample_width a = W4 /\
                      29 <= len (samples a) <= 480000) paths clips ->
  returns (process_chain DSPEngine_default paths) w
    (fun program =>
       channels program = Stereo /\
       frame_rate program = 48000 /\
       len (samples program)
         = 2 * program_frames clips + len paths * len (gap_samples W4)).
Proof.
  intros Hne Hall. unfold process_chain.
  eapply returns_bind.
  - apply (chain_loop_32bit paths clips empty w Hall). now left.
  - intros c w' _ (Hasm & Hch & Hl). specialize (Hch (or_intror Hne)).
    eapply returns_weaken; [apply master_limiter_returns|].
    intros seg (Hc & Hr & Hls). rewrite Hc, Hr, Hls, Hl.
    destruct Hasm as [->|(_ & Hfr & _)]; [discriminate|].
    repeat split; try done.
Qed.

End RunLemmas.

(** * Further properties of the engine *)

(** X1.  [_to_audio_segment] on a 32-bit original: the four bytes written
    per array item are one sample each, so the segment holds exactly the
    integers [int32(x * (2^31 - 1))], and [_to_numpy] reads back as many
    items as were encoded, each divided by [2^31]. *)
Theorem X1_round_trip_32bit `{External} self data orig :
  sample_width orig = W4 ->
  exists seg,
    _to_audio_segment self data orig = ok seg /\
    samples seg = map (fun x => astype_int32 (fmul_int x (2 ^ 31 - 1))) data /\
    _to_numpy seg
      = map (fun x => fdiv_int (of_int (astype_int32 (fmul_int x (2 ^ 31 - 1))))
                               (2 ^ 31)) data /\
    len (_to_numpy seg) = len data.
Proof.
  intros Hw. eexists. split; [now apply to_audio_segment_32bit_values|].
  split; [reflexivity|]. unfold _to_numpy, get_array_of_samples.
  cbn [samples sample_width]. rewrite map_map. split; [reflexivity|].
  unfold len. now rewrite length_map.
Qed.

Lemma X1_witness :
  sample_width (ramp32 1) = W4 /\
  exists seg,
    Engine._to_audio_segment (H := Placeholder.placeholder)
      Engine.DSPEngine_default [(1 # 2)%Q] (ramp32 1) = ok seg /\
    samples seg
      = map (fun x => @astype_int32 Placeholder.placeholder
                        (@fmul_int Placeholder.placeholder x (2 ^ 31 - 1)))
            [(1 # 2)%Q] /\
    Engine._to_numpy (H := Placeholder.placeholder) seg
      = map (fun x => @fdiv_int Placeholder.placeholder
                        (@of_int Placeholder.placeholder
                           (@astype_int32 Placeholder.placeholder
                              (@fmul_int Placeholder.placeholder x (2 ^ 31 - 1))))
                        (2 ^ 31))
            [(1 # 2)%Q] /\
    Py.len (Engine._to_numpy (H := Placeholder.placeholder) seg)
      = Py.len [(1 # 2)%Q].
Proof.
  split; [reflexivity|].
  apply (X1_round_trip_32bit (H := Placeholder.placeholder)
           Engine.DSPEngine_default [(1 # 2)%Q] (ramp32 1)).
  reflexivity.
Defined.

(** X2.  The pitch shifter of the default engine on a 32-bit clip of 2 to
    480000 samples returns a 32-bit mono clip at 48 kHz of exactly
    [floor(n * 432 / 440)] samples, fewer than it was given. *)
Theorem X2_pitch_shift_32bit `{External} audio w :
  sample_width audio = W4 ->
  2 <= len (samples audio) <= 480000 ->
  returns (pitch_shift_432hz DSPEngine_default audio) w
    (fun seg => sample_width seg = W4 /\ frame_rate seg = 48000 /\
                channels seg = Mono /\
                len (samples seg) = len (samples audio) * 432 / 440 /\
                len (samples seg) < len (samples audio)).
Proof.
  intros Hw Hn.
  assert (1 <= len (samples audio) * 432 / 440)
    by (apply Z.div_le_lower_bound; lia).
  assert (len (samples audio) * 432 / 440 < len (samples audio))
    by (apply Z.div_lt_upper_bound; lia).
  eapply returns_weaken.
  - apply (pitch_shift_returns DSPEngine_default audio w
             (len (samples audio) * 432 / 440)).
    + apply num_samples_upto_480000. lia.
    + lia.
    + intros E. rewrite E in Hn. unfold len in Hn. cbn [length] in Hn. lia.
  - intros seg Henc.
    destruct (encoded_32bit _ _ _ _ Hw Henc) as (? & ? & ? & Hl).
    repeat split; try done; rewrite Hl; lia.
Qed.

Lemma X2_witness :
  sample_width (ramp32 440) = W4 /\
  2 <= Py.len (samples (ramp32 440)) <= 480000 /\
  returns (Engine.pitch_shift_432hz (H := Placeholder.placeholder)
             Engine.DSPEngine_default (ramp32 440)) w0
    (fun seg => sample_width seg = W4 /\ frame_rate seg = 48000 /\
                channels seg = Mono /\
                Py.len (samples seg) = Py.len (samples (ramp32 440)) * 432 / 440 /\
                Py.len (samples seg) < Py.len (samples (ramp32 440))).
Proof.
  split; [reflexivity|]. split; [vm_compute; split; discriminate|].
  apply (X2_pitch_shift_32bit (H := Placeholder.placeholder) (ramp32 440) w0);
    [reflexivity|vm_compute; split; discriminate].
Defined.

(** X3.  The de-esser of the default engine on a clip of more than 27
    samples returns a mono clip at 48 kHz in the original's sample width
    whose data is four bytes per input sample; on a 32-bit clip it keeps
    the number of samples. *)
Theorem X3_deesser_length `{External} audio threshold w :
  27 < len (samples audio) ->
  returns (apply_deesser DSPEngine_default audio threshold) w
    (fun seg => sample_width seg = sample_width audio /\
                frame_rate seg = 48000 /\ channels seg = Mono /\
                len (samples seg) * width_bytes (sample_width audio)
                  = 4 * len (samples audio) /\
                (sample_width audio = W4 ->
                 len (samples seg) = len (samples audio))).
Proof.
  intros Hn. eapply returns_weaken.
  - apply apply_deesser_returns;
      [apply default_nyquist_nonzero|apply default_band_accepted|exact Hn].
  - intros seg (Hsw & Hfr & Hch & Hl). repeat split; try done.
    intros Hw. rewrite Hw in Hl. cbn [width_bytes] in Hl. lia.
Qed.

Lemma X3_witness :
  27 < Py.len (samples (ramp32 100)) /\
  returns (Engine.apply_deesser (H := Placeholder.placeholder)
             Engine.DSPEngine_default (ramp32 100) 0.1) w0
    (fun seg => sample_width seg = sample_width (ramp32 100) /\
                frame_rate seg = 48000 /\ channels seg = Mono /\
                Py.len (samples seg) * width_bytes (sample_width (ramp32 100))
                  = 4 * Py.len (samples (ramp32 100)) /\
                (sample_width (ramp32 100) = W4 ->
                 Py.len (samples seg) = Py.len (samples (ramp32 100)))).
Proof.
  split; [reflexivity|].
  apply (X3_deesser_length (H := Placeholder.placeholder) (ramp32 100) 0.1 w0).
  reflexivity.
Defined.

(** X4.  On a clip of at most 27 samples the de-esser of the default engine
    fails with the [ValueError] of [filtfilt]'s padding, whatever the
    threshold; the files are left alone. *)
Theorem X4_deesser_too_short `{External} audio threshold w :
  len (samples audio) <= 27 ->
  outcome (apply_deesser DSPEngine_default audio threshold) w
    = raise too_short_for_filter /\
  files (snd (apply_deesser DSPEngine_default audio threshold w)) = files w.
Proof.
  intros Hn.
  destruct (apply_deesser_too_short audio threshold w Hn) as (w' & E & Hf).
  unfold outcome. rewrite E. split; [reflexivity|exact Hf].
Qed.

Lemma X4_witness :
  Py.len (samples (ramp32 10)) <= 27 /\
  outcome (Engine.apply_deesser (H := Placeholder.placeholder)
             Engine.DSPEngine_default (ramp32 10) 0.1) w0
    = raise too_short_for_filter.
Proof.
  split; [vm_compute; discriminate|].
  apply (X4_deesser_too_short (H := Placeholder.placeholder) (ramp32 10) 0.1 w0).
  vm_compute; discriminate.
Defined.

(** X5.  The reverb, for every wet mix, returns a mono clip at the engine's
    rate in the original's sample width whose data is four bytes per input
    sample: the tail of the convolution is cut, and a 32-bit clip keeps its
    number of samples. *)
Theorem X5_reverb_length `{External} self audio wet_mix w :
  0 < sample_rate self ->
  returns (add_reverb self audio wet_mix) w
    (fun seg => sample_width seg = sample_width audio /\
                frame_rate seg = sample_rate self /\ channels seg = Mono /\
                len (samples seg) * width_bytes (sample_width audio)
                  = 4 * len (samples audio) /\
                (sample_width audio = W4 ->
                 len (samples seg) = len (samples audio))).
Proof.
  intros Hr. eapply returns_weaken; [now apply add_reverb_returns|].
  intros seg (Hsw & Hfr & Hch & Hl). repeat split; try done.
  intros Hw. rewrite Hw in Hl. cbn [width_bytes] in Hl. lia.
Qed.

Lemma X5_witness :
  0 < 8 /\
  returns (Engine.add_reverb (H := Placeholder.placeholder)
             {| Engine.sample_rate := 8 |} (ramp32 3) 0.4) w0
    (fun seg => sample_width seg = sample_width (ramp32 3) /\
                frame_rate seg = 8 /\ channels seg = Mono /\
                Py.len (samples seg) * width_bytes (sample_width (ramp32 3))
                  = 4 * Py.len (samples (ramp32 3)) /\
                (sample_width (ramp32 3) = W4 ->
                 Py.len (samples seg) = Py.len (samples (ramp32 3)))).
Proof.
  split; [reflexivity|].
  apply (X5_reverb_length (H := Placeholder.placeholder)
           {| Engine.sample_rate := 8 |} (ramp32 3) 0.4 w0).
  reflexivity.
Defined.



(** X7.  How many frames the widener keeps: on a mono clip at 48 kHz of
    [F <= 480000] frames the default engine returns a stereo clip in the
    same sample width of [kept_frames F] frames, never more than [F] and at
    most 24 fewer; all [F] when the frames beyond the last whole
    millisecond are none or more than 24, and [F - F mod 48] when they are
    fewer than 24. *)
Theorem X7_stereo_widen_frames `{External} audio w :
  channels audio = Mono -> frame_rate audio = 48000 ->
  len (samples audio) <= 480000 ->
  let F := len (samples audio) in
  returns (stereo_widen DSPEngine_default audio 15) w
    (fun seg => channels seg = Stereo /\
                sample_width seg = sample_width audio /\
                frame_rate seg = 48000 /\
                frames seg = kept_frames F /\
                F - 24 <= frames seg <= F /\
                (F mod 48 = 0 \/ 24 < F mod 48 -> frames seg = F) /\
                (F mod 48 < 24 -> frames seg = F - F mod 48)).
Proof.
  intros Hc Hr Hlen F.
  assert (HF : 0 <= F <= 480000)
    by (unfold F; pose proof (len_nonneg (samples audio)); lia).
  destruct (kept_frames_upto_480000 F HF) as (Hb & Hall & Hcut).
  eapply returns_weaken.
  - apply (stereo_widen_default audio w (kept_frames F) Hc Hr).
    now apply widened_frames_upto_480000.
  - intros seg (Hch & Hsw & Hfr & Hl).
    assert (Hfs : frames seg = kept_frames F).
    { unfold frames, frame_count. rewrite Hch, Hl. cbn [nchannels].
      rewrite Z.mul_comm. apply Z.div_mul. lia. }
    rewrite Hfs. repeat split; try done; try lia; auto.
Qed.

Lemma X7_witness :
  channels (ramp16 Mono 100) = Mono /\
  Py.len (samples (ramp16 Mono 100)) <= 480000 /\
  returns (Engine.stereo_widen (H := Placeholder.placeholder)
             Engine.DSPEngine_default (ramp16 Mono 100) 15) w0
    (fun seg => channels seg = Stereo /\
                sample_width seg = sample_width (ramp16 Mono 100) /\
                frame_rate seg = 48000 /\
                frames seg = kept_frames (Py.len (samples (ramp16 Mono 100))) /\
                Py.len (samples (ramp16 Mono 100)) - 24 <= frames seg
                  <= Py.len (samples (ramp16 Mono 100)) /\
                (Py.len (samples (ramp16 Mono 100)) mod 48 = 0 \/
                 24 < Py.len (samples (ramp16 Mono 100)) mod 48 ->
                 frames seg = Py.len (samples (ramp16 Mono 100))) /\
                (Py.len (samples (ramp16 Mono 100)) mod 48 < 24 ->
                 frames seg = Py.len (samples (ramp16 Mono 100))
                              - Py.len (samples (ramp16 Mono 100)) mod 48)).
Proof.
  split; [reflexivity|]. split; [vm_compute; discriminate|].
  apply (X7_stereo_widen_frames (H := Placeholder.placeholder)
           (ramp16 Mono 100) w0);
    [reflexivity|reflexivity|vm_compute; discriminate].
Defined.

(** X8.  [process_chain] only reads: whatever the clips are and whether it
    returns or raises, the files after the call are the files before. *)
Theorem X8_process_chain_reads_only `{External} self vocal_paths w :
  files (snd (process_chain self vocal_paths w)) = files w.
Proof. apply keeps_files_process_chain. Qed.





(** X12.  The Program of any number of 32-bit clips (what pydub makes of
    the 24-bit files of the synthesizer) of 29 to 480000 samples each: the
    chain returns a stereo Program at 48 kHz holding, for each clip, the
    frames the widener keeps of its [floor(n * 432 / 440)] pitch-shifted
    samples, and one pause; in all at most 24 frames per clip fewer than
    the pitch-shifted clips. *)
Theorem X12_program_of_32bit_clips `{External} vocal_paths clips w :
  vocal_paths <> [] ->
  Forall2 (fun p a => files w !! p = Some (WavFile a) /\
                      sample_width a = W4 /\
                      29 <= len (samples a) <= 480000) vocal_paths clips ->
  returns (process_chain DSPEngine_default vocal_paths) w
    (fun program =>
       channels program = Stereo /\
       frame_rate program = 48000 /\
       len (samples program)
         = 2 * program_frames clips
           + len vocal_paths * len (gap_samples W4) /\
       shifted_frames clips - 24 * len clips <= program_frames clips
         <= shifted_frames clips).
Proof.
  intros Hne Hall. eapply returns_weaken.
  - now apply (process_chain_32bit vocal_paths clips w).
  - intros program (Hc & Hr & Hl). repeat split; try done;
      apply program_frames_bounds;
      (eapply Forall2_Forall_r; [exact Hall|]);
      apply Forall_forall; intros p _ a (_ & _ & ?); lia.
Qed.

Lemma X12_witness :
  Forall2 (fun p a => files w9 !! p = Some (WavFile a) /\
                      sample_width a = W4 /\
                      29 <= Py.len (samples a) <= 480000)
          ["long.wav"] [ramp32 100] /\
  returns (Engine.process_chain (H := Placeholder.placeholder)
             Engine.DSPEngine_default ["long.wav"]) w9
    (fun program =>
       channels program = Stereo /\
       frame_rate program = 48000 /\
       Py.len (samples program)
         = 2 * program_frames [ramp32 100]
           + Py.len ["long.wav"]
             * Py.len (gap_samples (H := Placeholder.placeholder) W4) /\
       shifted_frames [ramp32 100] - 24 * Py.len [ramp32 100]
         <= program_frames [ramp32 100] <= shifted_frames [ramp32 100]).
Proof.
  assert (Hall : Forall2 (fun p a => files w9 !! p = Some (WavFile a) /\
                                     sample_width a = W4 /\
                                     29 <= Py.len (samples a) <= 480000)
                         ["long.wav"] [ramp32 100]).
  { constructor; [|constructor]. split; [reflexivity|]. split; [reflexivity|].
    vm_compute. split; discriminate. }
  split; [exact Hall|].
  apply (X12_program_of_32bit_clips (H := Placeholder.placeholder)
           ["long.wav"] [ramp32 100] w9); [discriminate|exact Hall].
Defined.

(** ** Strings *)

Lemma string_app_cons (x : ascii) (a b : string) :
  String x a +:+ b = String x (a +:+ b).
Proof. reflexivity. Qed.



Lemma string_app_length (a b : string) :
  String.length (a +:+ b) = (String.length a + String.length b)%nat.
Proof.
  induction a as [|x a IH]; [reflexivity|].
  rewrite string_app_cons. cbn [String.length]. now rewrite IH.
Qed.

Lemma prefix_ellipsis_hit b : String.prefix "..." ("..." +:+ b) = true.
Proof. now destruct b. Qed.

(** [has_ellipsis] decides [contains "..."]. *)
Lemma has_ellipsis_app a b : has_ellipsis (a +:+ "..." +:+ b) = true.
Proof.
  induction a as [|x a IH].
  { change (String.prefix "..." ("..." +:+ b) || has_ellipsis (".." +:+ b) = true).
    now rewrite prefix_ellipsis_hit. }
  rewrite string_app_cons. cbn [has_ellipsis]. rewrite IH. apply orb_true_r.
Qed.

Lemma prefix_ellipsis s :
  String.prefix "..." s = true -> exists b, s = "..." +:+ b.
Proof.
  intros Hp.
  destruct s as [|c1 s]; [discriminate|]. cbn [String.prefix] in Hp.
  destruct (ascii_dec "." c1) as [<-|]; [|discriminate].
  destruct s as [|c2 s]; [discriminate|]. cbn [String.prefix] in Hp.
  destruct (ascii_dec "." c2) as [<-|]; [|discriminate].
  destruct s as [|c3 s]; [discriminate|]. cbn [String.prefix] in Hp.
  destruct (ascii_dec "." c3) as [<-|]; [|discriminate].
  now exists s.
Qed.

Lemma has_ellipsis_contains s :
  has_ellipsis s = true <-> contains "..." s.
Proof.
  split.
  - induction s as [|c s IH]; [discriminate|]. cbn [has_ellipsis].
    intros [Hp|Hh]%orb_prop.
    + destruct (prefix_ellipsis _ Hp) as (b & ->). now exists "", b.
    + destruct (IH Hh) as (a & b & ->). now exists (String c a), b.
  - intros (a & b & ->). apply has_ellipsis_app.
Qed.

(** ** [apply_prosody_tags] *)
Section Prosody.
Import PyStr Vocal.

Lemma replace_ellipsis_hit new rest :
  str_replace "..." new ("..." +:+ rest) = new +:+ str_replace "..." new rest.
Proof.
  unfold str_replace.
  change (replace_from "..." new 0 ("..." +:+ rest))
    with (if String.prefix "..." ("..." +:+ rest)
          then new +:+ replace_from "..." new 0 rest
          else String "." (replace_from "..." new 0 (".." +:+ rest))).
  now rewrite prefix_ellipsis_hit.
Qed.

Lemma replace_ellipsis_miss new c rest :
  String.prefix "..." (String c rest) = false ->
  str_replace "..." new (String c rest) = String c (str_replace "..." new rest).
Proof. intros Hp. unfold str_replace. cbn [replace_from]. now rewrite Hp. Qed.

(** The three shapes of a text under the scan. *)
Lemma ellipsis_cases s :
  s = "" \/
  (exists rest, s = "..." +:+ rest) \/
  (exists c rest, s = String c rest /\ String.prefix "..." s = false).
Proof.
  destruct s as [|c rest]; [now left|]. right.
  destruct (String.prefix "..." (String c rest)) eqn:Hp.
  - left. now apply prefix_ellipsis.
  - right. now exists c, rest.
Qed.

Lemma ellipsis_ind (P : string -> Prop) :
  P "" ->
  (forall rest, P rest -> P ("..." +:+ rest)) ->
  (forall c rest, String.prefix "..." (String c rest) = false ->
                  P rest -> P (String c rest)) ->
  forall s, P s.
Proof.
  intros H0 Hhit Hmiss s.
  assert (Hall : forall n s, (String.length s <= n)%nat -> P s).
  { clear s. induction n as [|n IH]; intros s Hn.
    - destruct s; [exact H0|cbn in Hn; lia].
    - destruct (ellipsis_cases s) as [->|[(rest & ->)|(c & rest & -> & Hp)]].
      + exact H0.
      + apply Hhit. apply IH. rewrite string_app_length in Hn.
        cbn [String.length] in Hn. lia.
      + apply Hmiss; [exact Hp|]. apply IH. cbn in Hn. lia. }
  apply (Hall (String.length s)). lia.
Qed.

Lemma break_tag_app_no_ellipsis t :
  has_ellipsis (break_tag +:+ t) = has_ellipsis t.
Proof. reflexivity. Qed.

Lemma break_tag_app_starts1 t : starts1 (break_tag +:+ t) = false.
Proof. reflexivity. Qed.

Lemma starts1_replace s :
  starts1 (str_replace "..." break_tag s) = true -> starts1 s = true.
Proof.
  destruct (ellipsis_cases s) as [->|[(rest & ->)|(c & rest & -> & Hp)]].
  - discriminate.
  - reflexivity.
  - rewrite replace_ellipsis_miss by done. unfold starts1.
    cbn [String.prefix]. destruct (ascii_dec "." c); [|discriminate].
    intros _. now destruct rest.
Qed.

Lemma starts2_replace s :
  starts2 (str_replace "..." break_tag s) = true -> starts2 s = true.
Proof.
  destruct (ellipsis_cases s) as [->|[(rest & ->)|(c & rest & -> & Hp)]].
  - discriminate.
  - reflexivity.
  - rewrite replace_ellipsis_miss by done. unfold starts2.
    pose proof (starts1_replace rest) as H1. unfold starts1 in H1.
    cbn [String.prefix].
    destruct (ascii_dec "." c); [|discriminate].
    destruct (str_replace "..." break_tag rest) as [|c2 r2] eqn:Er; [discriminate|].
    intros H2. destruct rest as [|c3 r3]; [discriminate|].
    cbn [String.prefix] in *.
    destruct (ascii_dec "."%char c2) as [<-|]; [|discriminate].
    specialize (H1 ltac:(now destruct r2)).
    destruct (ascii_dec "."%char c3); [|discriminate]. now destruct r3.
Qed.

Lemma prefix3_cons c t :
  String.prefix "..." (String c t) = true ->
  c = "."%char /\ starts2 t = true.
Proof.
  unfold starts2. cbn [String.prefix].
  destruct (ascii_dec _ _) as [<-|]; [|discriminate]. done.
Qed.

Lemma replace_no_ellipsis s :
  has_ellipsis (str_replace "..." break_tag s) = false.
Proof.
  induction s as [|rest IH|c rest Hp IH] using ellipsis_ind.
  - reflexivity.
  - rewrite replace_ellipsis_hit, break_tag_app_no_ellipsis. exact IH.
  - rewrite replace_ellipsis_miss by done. cbn [has_ellipsis].
    rewrite IH, orb_false_r.
    destruct (String.prefix "..." (String c (str_replace "..." break_tag rest)))
      eqn:Hq; [|reflexivity].
    apply prefix3_cons in Hq as [-> H2]. apply starts2_replace in H2.
    unfold starts2 in H2. cbn [String.prefix] in Hp.
    destruct (ascii_dec _ _); [|done]. congruence.
Qed.

Lemma replace_without_ellipsis new s :
  has_ellipsis s = false -> str_replace "..." new s = s.
Proof.
  induction s as [|c rest IH]; [reflexivity|]. cbn [has_ellipsis].
  intros [Hp Hh]%orb_false_elim.
  rewrite replace_ellipsis_miss by done. now rewrite IH.
Qed.

End Prosody.

(** ** [select_voice_profile] *)
Section VoiceProfile.
Import Vocal.

Lemma select_voice_profile_cases emotion :
  (emotion = "declaração_de_shalom" /\
   select_voice_profile emotion = "AZnzlk1XhkDPsW8n3W8X") \/
  (emotion = "passividade_sagrada" /\
   select_voice_profile emotion = "EXAVITQu4vr4xnNLMQbo") \/
  (emotion <> "declaração_de_shalom" /\ emotion <> "passividade_sagrada" /\
   select_voice_profile emotion = "21m00Tcm4TlvDq8ikWAM").
Proof.
  unfold select_voice_profile, VOICE_MAPPING.
  destruct (decide (emotion = "declaração_de_shalom")) as [->|H1];
    [left; split; [done|]; now vm_compute|].
  destruct (decide (emotion = "passividade_sagrada")) as [->|H2];
    [right; left; split; [done|]; now vm_compute|].
  right; right. split; [done|]. split; [done|].
  destruct (decide (emotion = "segurança_transferida")) as [->|H3];
    [now vm_compute|].
  rewrite !lookup_insert_ne by done. now rewrite lookup_empty.
Qed.

End VoiceProfile.

(** ** The chapter list *)
Section Chapters.
Import PyStr Parser Seo.


Lemma hms_spec t :
  0 <= t ->
  let '(h, m, s) := hms t in
  h * 3600 + m * 60 + s = t /\ 0 <= h /\ 0 <= m < 60 /\ 0 <= s < 60.
Proof.
  intros Ht. unfold hms.
  pose proof (Z.div_mod t 60 ltac:(lia)).
  pose proof (Z.mod_pos_bound t 60 ltac:(lia)).
  pose proof (Z.div_mod (t / 60) 60 ltac:(lia)).
  pose proof (Z.mod_pos_bound (t / 60) 60 ltac:(lia)).
  assert (0 <= t / 60) by (apply Z.div_pos; lia).
  assert (0 <= t / 60 / 60) by (apply Z.div_pos; lia).
  repeat split; lia.
Qed.

Lemma format_02d_table :
  all_from (fun n => (String.length (format_02d n) =? 2)%nat) 0 100 = true.
Proof. vm_compute. reflexivity. Qed.

Lemma format_02d_length n :
  0 <= n < 100 -> String.length (format_02d n) = 2%nat.
Proof.
  intros Hn.
  pose proof (all_from_spec _ _ _ format_02d_table n ltac:(lia)) as Hc.
  now apply Nat.eqb_eq in Hc.
Qed.

Lemma timestamp_hms t :
  let '(h, m, s) := hms t in
  timestamp t = format_02d h +:+ ":" +:+ format_02d m +:+ ":" +:+ format_02d s.
Proof. reflexivity. Qed.

Lemma timestamp_length t :
  0 <= t < 360000 -> String.length (timestamp t) = 8%nat.
Proof.
  intros Ht. unfold timestamp. cbv zeta.
  pose proof (hms_spec t ltac:(lia)) as Hs. unfold hms in Hs.
  assert (t / 60 / 60 < 100).
  { apply Z.div_lt_upper_bound; [lia|]. apply Z.div_lt_upper_bound; lia. }
  rewrite !string_app_length, !format_02d_length by lia. reflexivity.
Qed.

End Chapters.

(** ** The theme of the title *)
Section Theme.
Import PyStr Parser Seo.

Lemma str_split_spec sep s :
  exists p ps,
    str_split sep s = p :: ps /\
    (forall a b, p <> a +:+ String sep b) /\
    ((ps = [] /\ s = p) \/ (exists tail, s = p +:+ String sep tail)).
Proof.
  induction s as [|c s (p & ps & Hs & Hno & Hshape)].
  - exists "", []. split; [reflexivity|]. split; [|now left].
    intros [|x a] b; discriminate.
  - cbn [str_split]. destruct (Ascii.eqb_spec c sep) as [->|Hne].
    + exists "", (str_split sep s). split; [reflexivity|]. split.
      * intros [|x a] b; discriminate.
      * right. now exists s.
    + rewrite Hs. exists (String c p), ps. split; [reflexivity|]. split.
      * intros [|x a] b; rewrite ?string_app_cons.
        -- change ("" +:+ String sep b) with (String sep b). congruence.
        -- intros [= _ E]. now apply (Hno a b).
      * destruct Hshape as [(-> & ->)|(tail & ->)].
        -- now left.
        -- right. exists tail. now rewrite string_app_cons.
Qed.

End Theme.

(** * Further properties of the text helpers *)

(** X13.  [apply_prosody_tags] leaves no ellipsis: whatever the text, its
    result does not contain three dots in a row (runs of four or more dots
    included: the dots left over after a replaced ellipsis are at most
    two, and the tag starts and ends with a space). *)
Theorem X13_prosody_leaves_no_ellipsis text :
  ~ contains "..." (Vocal.apply_prosody_tags text).
Proof.
  intros Hc%has_ellipsis_contains. unfold Vocal.apply_prosody_tags in Hc.
  now rewrite replace_no_ellipsis in Hc.
Qed.

(** X14.  A text without an ellipsis goes through [apply_prosody_tags]
    unchanged. *)
Theorem X14_prosody_without_ellipsis text :
  ~ contains "..." text -> Vocal.apply_prosody_tags text = text.
Proof.
  intros Hc. apply replace_without_ellipsis.
  destruct (has_ellipsis text) eqn:E; [|reflexivity].
  now apply has_ellipsis_contains in E.
Qed.

Lemma X14_witness :
  ~ contains "..." "Be still, and know." /\
  Vocal.apply_prosody_tags "Be still, and know." = "Be still, and know.".
Proof.
  assert (Hc : ~ contains "..." "Be still, and know.")
    by (intros Hc%has_ellipsis_contains; vm_compute in Hc; discriminate).
  split; [exact Hc|].
  apply (X14_prosody_without_ellipsis "Be still, and know."). exact Hc.
Defined.

(** An ellipsis in the middle of a verse becomes the pause tag. *)
Example prosody_example :
  Vocal.apply_prosody_tags "Peace... be still"
  = "Peace" +:+ Vocal.break_tag +:+ " be still".
Proof. reflexivity. Qed.

(** X15.  [select_voice_profile] always returns one of the three voices of
    [VOICE_MAPPING]: Domi and Bella for their two intentions, and Rachel
    for every other string, known or not. *)
Theorem X15_voice_profile emotion :
  In (Vocal.select_voice_profile emotion)
     ["21m00Tcm4TlvDq8ikWAM"; "AZnzlk1XhkDPsW8n3W8X"; "EXAVITQu4vr4xnNLMQbo"] /\
  (Vocal.select_voice_profile emotion = "AZnzlk1XhkDPsW8n3W8X"
   <-> emotion = "declaração_de_shalom") /\
  (Vocal.select_voice_profile emotion = "EXAVITQu4vr4xnNLMQbo"
   <-> emotion = "passividade_sagrada") /\
  (Vocal.select_voice_profile emotion = "21m00Tcm4TlvDq8ikWAM"
   <-> emotion <> "declaração_de_shalom" /\ emotion <> "passividade_sagrada").
Proof.
  destruct (select_voice_profile_cases emotion)
    as [(-> & ->)|[(-> & ->)|(H1 & H2 & ->)]].
  - split; [cbn; auto|]. repeat split; try done; intros; try discriminate.
    + now destruct H.
  - split; [cbn; auto|]. repeat split; try done; intros; try discriminate.
    + now destruct H.
  - split; [cbn; auto|]. repeat split; try done; intros; try discriminate.
Qed.


(** X17.  The timestamp of chapter [k]: its three fields are the hours,
    minutes and seconds of [30 * k] seconds, with minutes below 60 and
    seconds 0 or 30; the first chapter is at 00:00:00, and up to chapter
    11999 (under 100 hours) the timestamp has eight characters. *)
Theorem X17_chapter_timestamp (k : nat) :
  let t := 30 * Z.of_nat k in
  let '(h, m, s) := hms t in
  Seo.timestamp t
    = PyStr.format_02d h +:+ ":" +:+ PyStr.format_02d m +:+ ":"
      +:+ PyStr.format_02d s /\
  h * 3600 + m * 60 + s = t /\
  0 <= h /\ 0 <= m < 60 /\ (s = 0 \/ s = 30) /\
  Seo.timestamp 0 = "00:00:00" /\
  (Z.of_nat k < 12000 -> String.length (Seo.timestamp t) = 8%nat).
Proof.
  cbv zeta. pose proof (hms_spec (30 * Z.of_nat k) ltac:(lia)) as Hs.
  unfold hms in *. destruct Hs as (Hsum & Hh & Hm & Hsec).
  split; [reflexivity|]. split; [exact Hsum|]. split; [exact Hh|].
  split; [exact Hm|]. split.
  { change 60 with (30 * 2). rewrite Z.mul_mod_distr_l by lia.
    pose proof (Z.mod_pos_bound (Z.of_nat k) 2 ltac:(lia)). lia. }
  split; [reflexivity|].
  intros Hk. apply timestamp_length. lia.
Qed.

(** X18.  The theme [generate_all] puts in the title: "Scripture" when
    there is no verse; otherwise the first verse's reference up to its
    first space, so it has no space in it, and the reference is the theme
    alone or the theme, a space and the rest. *)
Theorem X18_title_theme :
  Seo.theme [] = "Scripture" /\
  forall verse rest,
    ~ contains " " (Seo.theme (verse :: rest)) /\
    (Parser.reference verse = Seo.theme (verse :: rest) \/
     exists tail,
       Parser.reference verse = Seo.theme (verse :: rest) +:+ " " +:+ tail).
Proof.
  split; [reflexivity|]. intros verse rest. unfold Seo.theme.
  destruct (str_split_spec " "%char (Parser.reference verse))
    as (p & ps & -> & Hno & Hshape).
  cbn [hd]. split.
  - intros (a & b & E). now apply (Hno a b).
  - destruct Hshape as [(_ & E)|(tail & E)]; [now left|right].
    now exists tail.
Qed.

(** The theme of a numbered book is its number. *)
Example theme_example :
  Seo.theme [{| Parser.text := "There is no fear in love";
                Parser.emotion := "declaração_de_shalom";
                Parser.reference := "1 John 4:18";
                Parser.frequency := 432 |}] = "1".
Proof. reflexivity. Qed.
